(** * ChemHelp: the API smoke-test script [test-api.py]

    The script prints a banner, then, inside one [try] block, probes five
    endpoints of a backend in a fixed order, printing the status code and a
    projection of the decoded JSON body after each probe.  A single
    [except Exception] handler prints the exception and lets the process end
    normally.

    The embedding below follows the script statement by statement.  Its
    effects are the HTTP calls it makes and the lines it prints, so a
    computation is a function from the backend and the calls made so far to a
    result (a value or a raised exception) and the events it emitted. *)

From Stdlib Require Import List String Ascii ZArith Lia Bool DecimalString.
Import ListNotations.
Open Scope string_scope.
Open Scope list_scope.

Set Warnings "-register-all".

(** ** Python values decoded from JSON *)

(** What [response.json()] can return.  A [dict] is kept as its items in
    insertion order (keys distinct); a [float] is kept as the text that
    Python shows for it; a [str] is kept as its UTF-8 encoding. *)
Inductive pyval : Type :=
| PNone
| PBool (b : bool)
| PInt (z : Z)
| PFloat (shown : string)
| PStr (s : string)
| PList (l : list pyval)
| PDict (items : list (string * pyval)).

(** The exceptions the tests can raise.  All four classes derive from
    [Exception], the class the handler of the script catches.  What is not
    raised by a test ([KeyboardInterrupt], a failure of [print] itself) is
    outside the model. *)
Inductive exn_class : Type :=
| RequestException   (* raised by requests.post / requests.get *)
| JSONDecodeError    (* raised by response.json() *)
| AttributeError     (* .get on a value that is not a dict *)
| TypeError.         (* len() of a value that has no length *)

Record exn : Type := mk_exn {
  exn_cls : exn_class;
  exn_str : string          (* str(e) *)
}.

Definition result (A : Type) : Type := (exn + A)%type.

Definition newline : string := String (ascii_of_nat 10) EmptyString.

(** [str(n)] for an [int]. *)
Definition str_int (z : Z) : string := NilZero.string_of_int (Z.to_int z).

Definition type_name (v : pyval) : string :=
  match v with
  | PNone => "NoneType"
  | PBool _ => "bool"
  | PInt _ => "int"
  | PFloat _ => "float"
  | PStr _ => "str"
  | PList _ => "list"
  | PDict _ => "dict"
  end.

Fixpoint lookup (k : string) (items : list (string * pyval)) : option pyval :=
  match items with
  | [] => None
  | (k', v) :: rest => if String.eqb k k' then Some v else lookup k rest
  end.

(** [v.get(k, default)]: only a [dict] has the method. *)
Definition py_get (v : pyval) (k : string) (default : pyval) : result pyval :=
  match v with
  | PDict items =>
      match lookup k items with
      | Some x => inr x
      | None => inr default
      end
  | _ => inl (mk_exn AttributeError
                ("'" ++ type_name v ++ "' object has no attribute 'get'"))
  end.

(** A byte of the form 10xxxxxx continues a UTF-8 code point. *)
Definition is_continuation (c : ascii) : bool :=
  let n := nat_of_ascii c in (128 <=? n)%nat && (n <? 192)%nat.

Definition starts_with_continuation (s : string) : bool :=
  match s with
  | EmptyString => false
  | String c _ => is_continuation c
  end.

(** The characters of a [str], each as its own UTF-8 encoding. *)
Fixpoint code_points (s : string) : list string :=
  match s with
  | EmptyString => []
  | String c rest =>
      match code_points rest with
      | p :: ps =>
          if starts_with_continuation p then String c p :: ps
          else String c EmptyString :: p :: ps
      | [] => [String c EmptyString]
      end
  end.

(** [len(v)]: lists, dicts and strings have a length. *)
Definition py_len (v : pyval) : result nat :=
  match v with
  | PList l => inr (List.length l)
  | PDict items => inr (List.length items)
  | PStr s => inr (List.length (code_points s))
  | _ => inl (mk_exn TypeError
                ("object of type '" ++ type_name v ++ "' has no len()"))
  end.

(** What iterating over [v] yields: the elements of a list, the keys of a
    dict, the characters of a string. *)
Definition py_iter (v : pyval) : result (list pyval) :=
  match v with
  | PList l => inr l
  | PDict items => inr (map (fun kv => PStr (fst kv)) items)
  | PStr s => inr (map PStr (code_points s))
  | _ => inl (mk_exn TypeError
                ("'" ++ type_name v ++ "' object is not iterable"))
  end.

(** [enumerate(l)] *)
Definition enumerate {A : Type} (l : list A) : list (nat * A) :=
  combine (seq 0 (List.length l)) l.

(** ** Requests, responses and the backend *)

Inductive http_method : Type := GET | POST.

Record request : Type := mk_request {
  method : http_method;
  url : string;
  json_payload : option pyval     (* the json= argument *)
}.

Record response : Type := mk_response {
  status_code : Z;
  json : result pyval             (* what response.json() does *)
}.

(** A backend answers a request, given the requests it has received before,
    with a response, or the call raises (connection refused, timeout...). *)
Definition backend : Type := list request -> request -> result response.

Inductive event : Type :=
| Call (r : request) (o : result response)
| Print (s : string).

Fixpoint calls (t : list event) : list request :=
  match t with
  | [] => []
  | Call r _ :: t' => r :: calls t'
  | Print _ :: t' => calls t'
  end.

Fixpoint responses (t : list event) : list (result response) :=
  match t with
  | [] => []
  | Call _ o :: t' => o :: responses t'
  | Print _ :: t' => responses t'
  end.

Fixpoint prints (t : list event) : list string :=
  match t with
  | [] => []
  | Call _ _ :: t' => prints t'
  | Print s :: t' => s :: prints t'
  end.

(** ** The monad of the script *)

Definition M (A : Type) : Type :=
  backend -> list request -> result A * list event.

Definition ret {A : Type} (x : A) : M A := fun _ _ => (inr x, []).

Definition lift {A : Type} (r : result A) : M A := fun _ _ => (r, []).

Definition bind {A B : Type} (m : M A) (k : A -> M B) : M B :=
  fun b h =>
    let '(r, t) := m b h in
    match r with
    | inl e => (inl e, t)
    | inr x => let '(r', t') := k x b (h ++ calls t) in (r', t ++ t')
    end.

Declare Scope script_scope.
Delimit Scope script_scope with script.
Notation "x <- m ;; k" := (bind m (fun x => k))
  (at level 100, m at next level, right associativity) : script_scope.
Notation "m ;; k" := (bind m (fun _ => k))
  (at level 100, right associativity) : script_scope.
Open Scope script_scope.

(** [print(s)] *)
Definition print (s : string) : M unit := fun _ _ => (inr tt, [Print s]).

Definition http (r : request) : M response :=
  fun b h => let o := b h r in (o, [Call r o]).

(** [requests.post(url, json=payload)] and [requests.get(url)] *)
Definition requests_post (u : string) (payload : pyval) : M response :=
  http (mk_request POST u (Some payload)).

Definition requests_get (u : string) : M response :=
  http (mk_request GET u None).

(** [for x in l: f(x)] *)
Fixpoint for_each {A : Type} (f : A -> M unit) (l : list A) : M unit :=
  match l with
  | [] => ret tt
  | x :: l' => f x ;; for_each f l'
  end.

(** [try: m  except Exception as e: handler(e)] *)
Definition try_except (m : M unit) (handler : exn -> M unit) : M unit :=
  fun b h =>
    let '(r, t) := m b h in
    match r with
    | inl e => let '(r', t') := handler e b (h ++ calls t) in (r', t ++ t')
    | inr x => (inr x, t)
    end.

(** The exit status of the process: 0 when the script runs to its end, 1
    when an exception leaves it uncaught. *)
Definition exit_status (r : result unit) : Z :=
  match r with
  | inl _ => 1
  | inr _ => 0
  end.

(** ** The script *)

Definition BASE_URL : string := "http://127.0.0.1:5000".

Definition register_payload : pyval :=
  PDict [("fullName", PStr "John Scientist");
         ("email", PStr "john@example.com");
         ("password", PStr "secure123")].

Definition login_payload : pyval :=
  PDict [("email", PStr "john@example.com");
         ("password", PStr "secure123")].

Definition node (id : Z) (name : string) (x y : Z) : pyval :=
  PDict [("id", PInt id); ("name", PStr name); ("x", PInt x); ("y", PInt y)].

Definition bond (from to : Z) (type : string) : pyval :=
  PDict [("from", PInt from); ("to", PInt to); ("type", PStr type)].

Definition structure_payload : pyval :=
  PDict [("name", PStr "Water Molecule");
         ("nodes", PList [node 1 "O" 100 100;
                          node 2 "H" 150 80;
                          node 3 "H" 150 120]);
         ("bonds", PList [bond 1 2 "single";
                          bond 1 3 "single"])].

(** ** Backends *)

(** A response with a decoded body. *)
Definition answered (status : Z) (body : pyval) : result response :=
  inr (mk_response status (inr body)).

(** The backend that answers every request with [o]. *)
Definition always (o : result response) : backend := fun _ _ => o.

(** The backend [b] with every status code replaced by [status]. *)
Definition with_status (status : Z) (b : backend) : backend :=
  fun h r =>
    match b h r with
    | inl e => inl e
    | inr x => inr (mk_response status (json x))
    end.

Definition ends_with (suffix s : string) : bool :=
  String.eqb
    (String.substring (String.length s - String.length suffix)
       (String.length suffix) s)
    suffix.

Definition water_entry : pyval :=
  PDict [("name", PStr "Water");
         ("data", PDict [("nodes", PList [PDict []; PDict []; PDict []])])].

(** A backend that serves the five endpoints. *)
Definition healthy : backend :=
  fun _ r =>
    if ends_with "/api/register" (url r) then
      answered 201 (PDict [("message", PStr "User registered")])
    else if ends_with "/api/login" (url r) then
      answered 200
        (PDict [("user", PDict [("email", PStr "john@example.com");
                                ("fullName", PStr "John Scientist")])])
    else if ends_with "/save-structure" (url r) then
      answered 201
        (PDict [("structure", PDict [("id", PInt 7);
                                     ("name", PStr "Water Molecule")])])
    else if ends_with "/structures" (url r) then
      answered 200 (PDict [("structures", PList [water_entry])])
    else
      answered 200
        (PDict [("email", PStr "john@example.com");
                ("fullName", PStr "John Scientist")]).

Definition connection_refused : exn :=
  mk_exn RequestException "Connection refused".

Definition expecting_value : exn :=
  mk_exn JSONDecodeError "Expecting value: line 1 column 1 (char 0)".

(** No backend listens: every call raises. *)
Definition unreachable : backend := always (inl connection_refused).

(** A backend that refuses the first connection and would serve the later
    ones. *)
Definition refuses_first : backend :=
  fun h r =>
    match h with
    | [] => inl connection_refused
    | _ => healthy h r
    end.

(** A backend whose login endpoint answers with a page that is not JSON. *)
Definition login_not_json : backend :=
  fun h r =>
    if ends_with "/api/login" (url r)
    then inr (mk_response 502 (inl expecting_value))
    else healthy h r.

(** A backend whose bodies are all the empty object. *)
Definition empty_bodies : backend := always (answered 200 (PDict [])).

(** A listing with an entry that is not an object. *)
Definition odd_listing : backend :=
  always (answered 200 (PDict [("structures", PList [PInt 5])])).

(** [repr] of a string without quotes, backslashes or characters to
    escape. *)
Definition repr_plain (s : string) : string := "'" ++ s ++ "'".

Section Script.

(** [repr(s)] for a [str] (Python's quoting and escaping), the builtin that
    shows the strings inside a list or a dict. *)
Variable repr_str : string -> string.

(** [repr(v)] *)
Fixpoint py_repr (v : pyval) : string :=
  match v with
  | PNone => "None"
  | PBool true => "True"
  | PBool false => "False"
  | PInt z => str_int z
  | PFloat shown => shown
  | PStr s => repr_str s
  | PList l => "[" ++ String.concat ", " (map py_repr l) ++ "]"
  | PDict items =>
      "{" ++ String.concat ", "
               (map (fun '(k, x) => (repr_str k ++ ": " ++ py_repr x)%string)
                    items)
          ++ "}"
  end.

(** [str(v)], which is what [{v}] in an f-string inserts. *)
Definition py_str (v : pyval) : string :=
  match v with
  | PStr s => s
  | _ => py_repr v
  end.

(** Test 1: Register *)
Definition test_register : M unit :=
  print "1️⃣ Testing Registration API..." ;;
  response <- requests_post (BASE_URL ++ "/api/register") register_payload ;;
  print ("   Status: " ++ str_int (status_code response)) ;;
  body <- lift (json response) ;;
  print ("   Response: " ++ py_str body) ;;
  print EmptyString.

(** Test 2: Login *)
Definition test_login : M unit :=
  print "2️⃣ Testing Login API..." ;;
  response <- requests_post (BASE_URL ++ "/api/login") login_payload ;;
  print ("   Status: " ++ str_int (status_code response)) ;;
  data <- lift (json response) ;;
  user <- lift (py_get data "user" (PDict [])) ;;
  email <- lift (py_get user "email" PNone) ;;
  user' <- lift (py_get data "user" (PDict [])) ;;
  fullName <- lift (py_get user' "fullName" PNone) ;;
  print ("   User: " ++ py_str email ++ " - " ++ py_str fullName) ;;
  print EmptyString.

(** Test 3: Get Profile *)
Definition test_get_profile : M unit :=
  print "3️⃣ Testing User Profile API..." ;;
  response <- requests_get (BASE_URL ++ "/api/user/john@example.com") ;;
  print ("   Status: " ++ str_int (status_code response)) ;;
  data <- lift (json response) ;;
  email <- lift (py_get data "email" PNone) ;;
  fullName <- lift (py_get data "fullName" PNone) ;;
  print ("   User: " ++ py_str email ++ " - " ++ py_str fullName) ;;
  print EmptyString.

(** Test 4: Save Structure *)
Definition test_save_structure : M unit :=
  print "4️⃣ Testing Save Structure API..." ;;
  response <- requests_post
                (BASE_URL ++ "/api/user/john@example.com/save-structure")
                structure_payload ;;
  print ("   Status: " ++ str_int (status_code response)) ;;
  data <- lift (json response) ;;
  structure <- lift (py_get data "structure" (PDict [])) ;;
  name <- lift (py_get structure "name" PNone) ;;
  structure' <- lift (py_get data "structure" (PDict [])) ;;
  id <- lift (py_get structure' "id" PNone) ;;
  print ("   Structure: " ++ py_str name ++ " (ID: " ++ py_str id ++ ")") ;;
  print EmptyString.

(** The body of the loop of test 5, for the pair [(i, s)] of [enumerate]. *)
Definition print_structure (entry : nat * pyval) : M unit :=
  let '(i, s) := entry in
  name <- lift (py_get s "name" PNone) ;;
  data <- lift (py_get s "data" (PDict [])) ;;
  nodes <- lift (py_get data "nodes" (PList [])) ;;
  n <- lift (py_len nodes) ;;
  print ("   [" ++ str_int (Z.of_nat (i + 1)) ++ "] " ++ py_str name
         ++ " (" ++ str_int (Z.of_nat n) ++ " nodes)").

(** Test 5: Get Structures *)
Definition test_get_structures : M unit :=
  print "5️⃣ Testing Get Structures API..." ;;
  response <- requests_get
                (BASE_URL ++ "/api/user/john@example.com/structures") ;;
  print ("   Status: " ++ str_int (status_code response)) ;;
  data <- lift (json response) ;;
  structures <- lift (py_get data "structures" (PList [])) ;;
  n <- lift (py_len structures) ;;
  print ("   Total Structures: " ++ str_int (Z.of_nat n)) ;;
  entries <- lift (py_iter structures) ;;
  for_each print_structure (enumerate entries) ;;
  print EmptyString.

(** The statements inside [try:]. *)
Definition body : M unit :=
  test_register ;;
  test_login ;;
  test_get_profile ;;
  test_save_structure ;;
  test_get_structures ;;
  print ("✅ All API tests passed!" ++ newline).

(** The whole script. *)
Definition main : M unit :=
  print (newline ++ "🌐 Testing API Endpoints..." ++ newline) ;;
  try_except body
    (fun e => print ("❌ Error: " ++ exn_str e ++ newline)).

(** ** Vocabulary of the properties *)

(** The five probes, in the order of the script. *)
Definition register_request : request :=
  mk_request POST (BASE_URL ++ "/api/register") (Some register_payload).

Definition login_request : request :=
  mk_request POST (BASE_URL ++ "/api/login") (Some login_payload).

Definition profile_request : request :=
  mk_request GET (BASE_URL ++ "/api/user/john@example.com") None.

Definition save_structure_request : request :=
  mk_request POST (BASE_URL ++ "/api/user/john@example.com/save-structure")
    (Some structure_payload).

Definition structures_request : request :=
  mk_request GET (BASE_URL ++ "/api/user/john@example.com/structures") None.

Definition probes : list request :=
  [register_request; login_request; profile_request;
   save_structure_request; structures_request].

Definition steps : list (M unit) :=
  [test_register; test_login; test_get_profile;
   test_save_structure; test_get_structures].

(** The statements of [steps], one after the other. *)
Definition run_steps (ss : list (M unit)) : M unit :=
  for_each (fun s => s) ss.

(** The shape the five tests share: a header line, the call, the status
    line, the decoding of the body, and what is shown of it. *)
Definition probe (header : string) (req : request) (show : pyval -> M unit)
  : M unit :=
  print header ;;
  response <- http req ;;
  print ("   Status: " ++ str_int (status_code response)) ;;
  data <- lift (json response) ;;
  show data.

Definition status_line (r : response) : string :=
  "   Status: " ++ str_int (status_code r).

(** What each test shows of the decoded body. *)
Definition show_register (body : pyval) : M unit :=
  print ("   Response: " ++ py_str body) ;;
  print EmptyString.

Definition show_login (data : pyval) : M unit :=
  user <- lift (py_get data "user" (PDict [])) ;;
  email <- lift (py_get user "email" PNone) ;;
  user' <- lift (py_get data "user" (PDict [])) ;;
  fullName <- lift (py_get user' "fullName" PNone) ;;
  print ("   User: " ++ py_str email ++ " - " ++ py_str fullName) ;;
  print EmptyString.

Definition show_profile (data : pyval) : M unit :=
  email <- lift (py_get data "email" PNone) ;;
  fullName <- lift (py_get data "fullName" PNone) ;;
  print ("   User: " ++ py_str email ++ " - " ++ py_str fullName) ;;
  print EmptyString.

Definition show_structure (data : pyval) : M unit :=
  structure <- lift (py_get data "structure" (PDict [])) ;;
  name <- lift (py_get structure "name" PNone) ;;
  structure' <- lift (py_get data "structure" (PDict [])) ;;
  id <- lift (py_get structure' "id" PNone) ;;
  print ("   Structure: " ++ py_str name ++ " (ID: " ++ py_str id ++ ")") ;;
  print EmptyString.

Definition show_structures (data : pyval) : M unit :=
  structures <- lift (py_get data "structures" (PList [])) ;;
  n <- lift (py_len structures) ;;
  print ("   Total Structures: " ++ str_int (Z.of_nat n)) ;;
  entries <- lift (py_iter structures) ;;
  for_each print_structure (enumerate entries) ;;
  print EmptyString.

Definition success_banner : string := "✅ All API tests passed!" ++ newline.

Definition failure_marker : string := "❌ Error: ".

Definition failure_message (e : exn) : string :=
  failure_marker ++ exn_str e ++ newline.

Definition is_failure (s : string) : bool := String.prefix failure_marker s.

(** A line that is neither a failure message nor the success banner. *)
Definition plain (s : string) : bool :=
  negb (is_failure s) && negb (String.eqb s success_banner).

(** A computation that only prints plain lines (or raises), whatever the
    backend. *)
Definition quiet {A : Type} (m : M A) : Prop :=
  exists (r : result A) (ls : list string),
    forallb plain ls = true /\ forall b h, m b h = (r, map Print ls).

(** Two outcomes that differ at most in the status code. *)
Definition same_but_status (o o' : result response) : Prop :=
  match o, o' with
  | inl e, inl e' => e = e'
  | inr r, inr r' => json r = json r'
  | _, _ => False
  end.

(** Two backends whose answers differ at most in their status codes. *)
Definition same_but_statuses (b b' : backend) : Prop :=
  forall h r, same_but_status (b h r) (b' h r).

(** What a test that probes [req] does. *)
Record probing (req : request) (s : M unit) : Prop := {
  pr_local : forall b h, s b h = s (always (b h req)) [];
  pr_calls : forall b h, calls (snd (s b h)) = [req];
  pr_responses : forall b h, responses (snd (s b h)) = [b h req];
  pr_plain : forall b h, forallb plain (prints (snd (s b h))) = true;
  pr_status : forall o o',
      same_but_status o o' -> fst (s (always o) []) = fst (s (always o') []);
  pr_shows_status : forall b h r,
      b h req = inr r -> In (status_line r) (prints (snd (s b h)))
}.


(** Running [ss] from the history [h], the first [k] tests return and the
    next one raises [e]. *)
Definition raises_in (ss : list (M unit)) (b : backend) (h : list request)
    (k : nat) (e : exn) : Prop :=
  fst (run_steps (firstn k ss) b h) = inr tt /\
  fst (nth k ss (ret tt) b (h ++ calls (snd (run_steps (firstn k ss) b h))))
  = inl e.

(** In a run of the script against [b], test [k + 1] raises [e]. *)
Definition raises_at (b : backend) (k : nat) (e : exn) : Prop :=
  raises_in steps b [] k e.

Definition start_banner : string :=
  newline ++ "🌐 Testing API Endpoints..." ++ newline.

(** The [email] field of the payload of a request. *)
Definition payload_email (r : request) : option string :=
  match json_payload r with
  | Some (PDict items) =>
      match lookup "email" items with
      | Some (PStr e) => Some e
      | _ => None
      end
  | _ => None
  end.

Fixpoint strip_prefix (p s : string) : option string :=
  match p, s with
  | EmptyString, _ => Some s
  | String a p', String c s' =>
      if Ascii.eqb a c then strip_prefix p' s' else None
  | String _ _, EmptyString => None
  end.

Fixpoint until_slash (s : string) : string :=
  match s with
  | EmptyString => EmptyString
  | String c s' =>
      if Ascii.eqb c "/" then EmptyString else String c (until_slash s')
  end.

(** The path segment that follows [/api/user/] in the URL of a request. *)
Definition url_user (r : request) : option string :=
  option_map until_slash (strip_prefix (BASE_URL ++ "/api/user/") (url r)).

(** A per-structure line of test 5. *)
Definition is_structure_line (s : string) : bool := String.prefix "   [" s.

(** An entry of [structures] that test 5 can show: a dict whose [data], when
    present, is a dict whose [nodes], when present, has a length. *)
Definition structure_ok (s : pyval) : bool :=
  match s with
  | PDict items =>
      match lookup "data" items with
      | None => true
      | Some (PDict ditems) =>
          match lookup "nodes" ditems with
          | None | Some (PList _) | Some (PDict _) | Some (PStr _) => true
          | _ => false
          end
      | _ => false
      end
  | _ => false
  end.

(** The value of a key, [None] when the key is absent. *)
Definition field_or_none (k : string) (items : list (string * pyval))
  : pyval :=
  match lookup k items with
  | Some x => x
  | None => PNone
  end.

(** The [name] of an entry, [None] when absent. *)
Definition name_of (s : pyval) : pyval :=
  match s with
  | PDict items =>
      match lookup "name" items with
      | Some x => x
      | None => PNone
      end
  | _ => PNone
  end.

(** The length of [data.nodes] of an entry, each defaulted to empty. *)
Definition nodes_count (s : pyval) : nat :=
  match s with
  | PDict items =>
      match lookup "data" items with
      | None => 0
      | Some (PDict ditems) =>
          match lookup "nodes" ditems with
          | Some (PList l) => List.length l
          | Some (PDict l) => List.length l
          | Some (PStr x) => List.length (code_points x)
          | _ => 0
          end
      | _ => 0
      end
  | _ => 0
  end.

Definition structure_line (entry : nat * pyval) : string :=
  "   [" ++ str_int (Z.of_nat (fst entry + 1)) ++ "] "
  ++ py_str (name_of (snd entry))
  ++ " (" ++ str_int (Z.of_nat (nodes_count (snd entry))) ++ " nodes)".

(** ** Vocabulary of the failures *)

(** The header lines of the five tests, in the order of the script. *)
Definition headers : list string :=
  ["1️⃣ Testing Registration API..."; "2️⃣ Testing Login API...";
   "3️⃣ Testing User Profile API..."; "4️⃣ Testing Save Structure API...";
   "5️⃣ Testing Get Structures API..."].

Definition is_object (v : pyval) : bool :=
  match v with
  | PDict _ => true
  | _ => false
  end.

Definition is_array (v : pyval) : bool :=
  match v with
  | PList _ => true
  | _ => false
  end.

(** The values [len] accepts. *)
Definition has_len (v : pyval) : bool :=
  match v with
  | PList _ | PDict _ | PStr _ => true
  | _ => false
  end.

(** What [v.get] raises when [v] is not a dict. *)
Definition no_get (v : pyval) : exn :=
  mk_exn AttributeError
    ("'" ++ type_name v ++ "' object has no attribute 'get'").

(** What [len(v)] raises when [v] has no length. *)
Definition no_len (v : pyval) : exn :=
  mk_exn TypeError ("object of type '" ++ type_name v ++ "' has no len()").

(** A backend whose bodies are all [null]. *)
Definition null_bodies : backend := always (answered 200 PNone).

(** A backend whose bodies carry [user] and [structure] as [null]. *)
Definition null_fields : backend :=
  always (answered 200 (PDict [("user", PNone); ("structure", PNone)])).

(** A backend whose listing is a number. *)
Definition count_listing : backend :=
  always (answered 200 (PDict [("structures", PInt 3)])).

(** A backend whose listing is an object keyed by name. *)
Definition keyed_listing : backend :=
  always (answered 200
            (PDict [("structures", PDict [("Water", water_entry)])])).

(** A backend whose listing has an entry that is not an object between two
    that are. *)
Definition mixed_listing : backend :=
  always (answered 200
            (PDict [("structures", PList [water_entry; PInt 5; water_entry])])).

(** A backend that answers every call with a page that is not JSON. *)
Definition not_json : backend :=
  always (inr (mk_response 502 (inl expecting_value))).

(** ** What a run observes of the backend *)

(** What the script can tell of the outcome of a call: the text of the
    exception when the call raises; the status code and the text of the
    exception when the body does not decode; the status code and the body
    otherwise.  The class of an exception is not part of it. *)
Inductive observed : Type :=
| CallRaised (text : string)
| DecodeRaised (status : Z) (text : string)
| Decoded (status : Z) (body : pyval).

Definition observe (o : result response) : observed :=
  match o with
  | inl e => CallRaised (exn_str e)
  | inr r =>
      match json r with
      | inl e => DecodeRaised (status_code r) (exn_str e)
      | inr body => Decoded (status_code r) body
      end
  end.

(** The same, without the text of the exceptions: the status codes, the
    bodies, and where an exception is raised. *)
Definition forget_text (x : observed) : observed :=
  match x with
  | CallRaised _ => CallRaised EmptyString
  | DecodeRaised status _ => DecodeRaised status EmptyString
  | Decoded status body => Decoded status body
  end.

(** Two results that are told apart at most by the class of the exception. *)
Definition same_text (r r' : result unit) : Prop :=
  match r, r' with
  | inl e, inl e' => exn_str e = exn_str e'
  | inr _, inr _ => True
  | _, _ => False
  end.

(** A test whose lines depend on the outcome of its call only through what
    is observed of it. *)
Definition text_blind (s : M unit) : Prop :=
  forall o o',
    observe o = observe o' ->
    prints (snd (s (always o) [])) = prints (snd (s (always o') [])) /\
    same_text (fst (s (always o) [])) (fst (s (always o') [])).

(** No backend answers in time: every call raises. *)
Definition timed_out : backend :=
  always (inl (mk_exn RequestException "Read timed out")).

(** A backend that answers by the number of calls it has received: the
    first as [healthy] does, the second with a page that is not JSON, whose
    decoding raises an exception of another class than with
    [login_not_json], and the later ones with an error. *)
Definition second_not_json : backend :=
  fun h r =>
    match h with
    | [] => healthy h r
    | [_] =>
        inr (mk_response 502
               (inl (mk_exn RequestException
                       "Expecting value: line 1 column 1 (char 0)")))
    | _ => answered 500 PNone
    end.

(** ** Traces *)

Lemma calls_app (t t' : list event) : calls (t ++ t') = calls t ++ calls t'.
Proof.
  induction t as [|[r o|s] t IH]; cbn; [reflexivity | now rewrite IH | exact IH].
Qed.

Lemma responses_app (t t' : list event) :
  responses (t ++ t') = responses t ++ responses t'.
Proof.
  induction t as [|[r o|s] t IH]; cbn; [reflexivity | now rewrite IH | exact IH].
Qed.

Lemma prints_app (t t' : list event) :
  prints (t ++ t') = prints t ++ prints t'.
Proof.
  induction t as [|[r o|s] t IH]; cbn; [reflexivity | exact IH | now rewrite IH].
Qed.

Lemma calls_Print (ls : list string) : calls (map Print ls) = [].
Proof. induction ls; cbn; auto. Qed.

Lemma responses_Print (ls : list string) : responses (map Print ls) = [].
Proof. induction ls; cbn; auto. Qed.

Lemma prints_Print (ls : list string) : prints (map Print ls) = ls.
Proof. induction ls; cbn; congruence. Qed.

(** ** Computations that only print *)

Lemma quiet_ret {A : Type} (x : A) : quiet (ret x).
Proof. exists (inr x), []. split; [reflexivity | intros; reflexivity]. Qed.

Lemma quiet_lift {A : Type} (r : result A) : quiet (lift r).
Proof. exists r, []. split; [reflexivity | intros; reflexivity]. Qed.

Lemma quiet_print (s : string) : plain s = true -> quiet (print s).
Proof.
  intros Hs. exists (inr tt), [s]. split; [cbn; now rewrite Hs | intros; reflexivity].
Qed.

Lemma quiet_bind {A B : Type} (m : M A) (k : A -> M B) :
  quiet m -> (forall x, quiet (k x)) -> quiet (bind m k).
Proof.
  intros (r & ls & Hls & Hm) Hk. destruct r as [e|x].
  - exists (inl e), ls. split; [exact Hls|]. intros b h. unfold bind.
    now rewrite Hm.
  - destruct (Hk x) as (r' & ls' & Hls' & Hkx).
    exists r', (ls ++ ls'). split.
    + rewrite forallb_app, Hls, Hls'. reflexivity.
    + intros b h. unfold bind. rewrite Hm, Hkx, map_app. reflexivity.
Qed.

Lemma quiet_for_each {A : Type} (f : A -> M unit) (l : list A) :
  (forall x, quiet (f x)) -> quiet (for_each f l).
Proof.
  intros Hf. induction l as [|x l IH]; cbn.
  - apply quiet_ret.
  - apply quiet_bind; [apply Hf | intros _; exact IH].
Qed.

Create HintDb quiet discriminated.
#[local] Hint Resolve quiet_ret quiet_lift quiet_bind quiet_for_each : quiet.
#[local] Hint Extern 1 (quiet (print _)) =>
  apply quiet_print; reflexivity : quiet.

Ltac quiet_tac := repeat (intro || apply quiet_bind); auto with quiet.

Lemma quiet_print_structure (entry : nat * pyval) :
  quiet (print_structure entry).
Proof. destruct entry as [i s]. unfold print_structure. quiet_tac. Qed.

(** ** One probe *)

Section Probe.

Variables (header : string) (req : request) (show : pyval -> M unit).
Hypothesis header_plain : plain header = true.
Hypothesis show_quiet : forall data, quiet (show data).

(** What a probe does, case by case on the outcome of its call. *)
Lemma probe_run (b : backend) (h : list request) :
  probe header req show b h =
  match b h req with
  | inl e => (inl e, [Print header; Call req (inl e)])
  | inr r =>
      match json r with
      | inl e =>
          (inl e, [Print header; Call req (inr r); Print (status_line r)])
      | inr data =>
          (fst (show data b h),
           Print header :: Call req (inr r) :: Print (status_line r)
             :: snd (show data b h))
      end
  end.
Proof.
  unfold probe, bind, print, http, lift. cbn. rewrite app_nil_r.
  destruct (b h req) as [e|r]; cbn; [reflexivity|].
  destruct (json r) as [e|data]; cbn; [reflexivity|].
  destruct (show_quiet data) as (r' & ls & _ & Hs). rewrite !Hs. reflexivity.
Qed.

(** A probe whose call is answered with a body that decodes. *)
Lemma probe_answered (b : backend) (h : list request) status data :
  b h req = answered status data ->
  probe header req show b h =
  (fst (show data b h),
   Print header :: Call req (answered status data)
     :: Print ("   Status: " ++ str_int status)%string
     :: snd (show data b h)).
Proof. intros Hb. rewrite probe_run, Hb. reflexivity. Qed.

Lemma probe_probing : probing req (probe header req show).
Proof.
  split.
  - intros b h. rewrite !probe_run. unfold always.
    destruct (b h req) as [e|r]; [reflexivity|].
    destruct (json r) as [e|data]; [reflexivity|].
    destruct (show_quiet data) as (r' & ls & _ & Hs). now rewrite !Hs.
  - intros b h. rewrite probe_run.
    destruct (b h req) as [e|r]; [reflexivity|].
    destruct (json r) as [e|data]; [reflexivity|].
    destruct (show_quiet data) as (r' & ls & _ & Hs). rewrite Hs. cbn.
    now rewrite calls_Print.
  - intros b h. rewrite probe_run.
    destruct (b h req) as [e|r]; [reflexivity|].
    destruct (json r) as [e|data]; [reflexivity|].
    destruct (show_quiet data) as (r' & ls & _ & Hs). rewrite Hs. cbn.
    now rewrite responses_Print.
  - intros b h. rewrite probe_run.
    destruct (b h req) as [e|r]; cbn; [now rewrite header_plain|].
    destruct (json r) as [e|data]; cbn; [now rewrite header_plain|].
    destruct (show_quiet data) as (r' & ls & Hls & Hs). rewrite Hs. cbn.
    now rewrite header_plain, prints_Print, Hls.
  - intros o o' Ho. rewrite !probe_run. unfold always.
    destruct o as [e|r], o' as [e'|r']; cbn in Ho; try contradiction.
    + now subst.
    + rewrite <- Ho. destruct (json r) as [e|data]; [reflexivity|].
      destruct (show_quiet data) as (r'' & ls & _ & Hs). now rewrite !Hs.
  - intros b h r Hr. rewrite probe_run, Hr.
    destruct (json r) as [e|data]; cbn; auto.
Qed.

End Probe.

(** Each test of the script is a probe of its request. *)
Lemma test_register_probe :
  test_register =
  probe "1️⃣ Testing Registration API..." register_request show_register.
Proof. reflexivity. Qed.

Lemma test_login_probe :
  test_login = probe "2️⃣ Testing Login API..." login_request show_login.
Proof. reflexivity. Qed.

Lemma test_get_profile_probe :
  test_get_profile =
  probe "3️⃣ Testing User Profile API..." profile_request show_profile.
Proof. reflexivity. Qed.

Lemma test_save_structure_probe :
  test_save_structure =
  probe "4️⃣ Testing Save Structure API..." save_structure_request
    show_structure.
Proof. reflexivity. Qed.

Lemma test_get_structures_probe :
  test_get_structures =
  probe "5️⃣ Testing Get Structures API..." structures_request
    show_structures.
Proof. reflexivity. Qed.

Lemma show_register_quiet data : quiet (show_register data).
Proof. unfold show_register. quiet_tac. Qed.

Lemma show_login_quiet data : quiet (show_login data).
Proof. unfold show_login. quiet_tac. Qed.

Lemma show_profile_quiet data : quiet (show_profile data).
Proof. unfold show_profile. quiet_tac. Qed.

Lemma show_structure_quiet data : quiet (show_structure data).
Proof. unfold show_structure. quiet_tac. Qed.

Lemma show_structures_quiet data : quiet (show_structures data).
Proof.
  unfold show_structures. quiet_tac.
  apply quiet_for_each, quiet_print_structure.
Qed.

Lemma test_register_probing : probing register_request test_register.
Proof.
  rewrite test_register_probe.
  apply probe_probing; [reflexivity | exact show_register_quiet].
Qed.

Lemma test_login_probing : probing login_request test_login.
Proof.
  rewrite test_login_probe.
  apply probe_probing; [reflexivity | exact show_login_quiet].
Qed.

Lemma test_get_profile_probing : probing profile_request test_get_profile.
Proof.
  rewrite test_get_profile_probe.
  apply probe_probing; [reflexivity | exact show_profile_quiet].
Qed.

Lemma test_save_structure_probing :
  probing save_structure_request test_save_structure.
Proof.
  rewrite test_save_structure_probe.
  apply probe_probing; [reflexivity | exact show_structure_quiet].
Qed.

Lemma test_get_structures_probing :
  probing structures_request test_get_structures.
Proof.
  rewrite test_get_structures_probe.
  apply probe_probing; [reflexivity | exact show_structures_quiet].
Qed.

Lemma steps_probing : Forall2 probing probes steps.
Proof.
  unfold probes, steps. repeat apply Forall2_cons; [| | | | | apply Forall2_nil].
  - exact test_register_probing.
  - exact test_login_probing.
  - exact test_get_profile_probing.
  - exact test_save_structure_probing.
  - exact test_get_structures_probing.
Qed.

(** ** A sequence of probes *)

Lemma run_steps_cons (s : M unit) (ss : list (M unit)) b h :
  run_steps (s :: ss) b h =
  match fst (s b h) with
  | inl e => (inl e, snd (s b h))
  | inr _ =>
      (fst (run_steps ss b (h ++ calls (snd (s b h)))),
       snd (s b h) ++ snd (run_steps ss b (h ++ calls (snd (s b h)))))
  end.
Proof.
  unfold run_steps. cbn. unfold bind.
  destruct (s b h) as [[e|[]] t]; cbn; [reflexivity|].
  now destruct (for_each _ ss b (h ++ calls t)).
Qed.

Lemma run_steps_then (ss : list (M unit)) (k : M unit) b h :
  fold_right (fun s acc => s ;; acc) k ss b h = (run_steps ss ;; k) b h.
Proof.
  revert h. induction ss as [|s ss IH]; intros h.
  - cbn. unfold bind, ret. cbn. rewrite app_nil_r. now destruct (k b h).
  - cbn [fold_right]. unfold bind at 1. unfold bind at 2.
    rewrite run_steps_cons.
    destruct (s b h) as [[e|[]] t]; cbn [fst snd]; [reflexivity|].
    rewrite IH. unfold bind.
    destruct (run_steps ss b (h ++ calls t)) as [[e|[]] t']; cbn [fst snd];
      [reflexivity|].
    rewrite calls_app, !app_assoc.
    destruct (k b ((h ++ calls t) ++ calls t')) as [r'' t''].
    now rewrite app_assoc.
Qed.

Lemma run_steps_plain reqs ss b h :
  Forall2 probing reqs ss ->
  forallb plain (prints (snd (run_steps ss b h))) = true.
Proof.
  intros Hall. revert h.
  induction Hall as [|req s reqs' ss' Hs _ IH]; intros h.
  - reflexivity.
  - rewrite run_steps_cons. pose proof (pr_plain _ _ Hs b h) as Hp.
    destruct (fst (s b h)) as [e|[]]; cbn [snd]; [exact Hp|].
    now rewrite prints_app, forallb_app, Hp, IH.
Qed.

(** When no test raises, the calls made are exactly the requests. *)
Lemma run_steps_calls reqs ss b h :
  Forall2 probing reqs ss ->
  fst (run_steps ss b h) = inr tt -> calls (snd (run_steps ss b h)) = reqs.
Proof.
  intros Hall. revert h.
  induction Hall as [|req s reqs' ss' Hs _ IH]; intros h.
  - reflexivity.
  - rewrite run_steps_cons. pose proof (pr_calls _ _ Hs b h) as Hc.
    destruct (fst (s b h)) as [e|[]]; cbn [fst snd]; [discriminate|].
    intros Hok. rewrite calls_app, (IH _ Hok), Hc. reflexivity.
Qed.

(** When test [k + 1] raises, the run raises the same exception, and the
    calls made are those of the first [k + 1] tests. *)
Lemma run_steps_raises reqs ss b h k e :
  Forall2 probing reqs ss ->
  raises_in ss b h k e ->
  fst (run_steps ss b h) = inl e /\
  calls (snd (run_steps ss b h)) = firstn (S k) reqs.
Proof.
  intros Hall. revert h k.
  induction Hall as [|req s reqs' ss' Hs _ IH]; intros h k [Hok He].
  - destruct k; discriminate He.
  - pose proof (pr_calls _ _ Hs b h) as Hc. destruct k as [|k].
    + cbn in He. rewrite app_nil_r in He. rewrite run_steps_cons, He.
      cbn [fst snd]. rewrite Hc. auto.
    + cbn [firstn nth] in Hok, He. rewrite run_steps_cons in Hok, He.
      rewrite run_steps_cons.
      destruct (fst (s b h)) as [e'|[]]; cbn [fst snd] in *; [discriminate|].
      rewrite calls_app, app_assoc in He.
      destruct (IH (h ++ calls (snd (s b h))) k (conj Hok He)) as [Hr Hcs].
      split; [exact Hr|]. rewrite calls_app, Hcs, Hc. reflexivity.
Qed.

(** A run that raises does so at some test. *)
Lemma run_steps_raises_inv reqs ss b h e :
  Forall2 probing reqs ss ->
  fst (run_steps ss b h) = inl e ->
  exists k, k < List.length ss /\ raises_in ss b h k e.
Proof.
  intros Hall. revert h.
  induction Hall as [|req s reqs' ss' Hs _ IH]; intros h.
  - discriminate.
  - rewrite run_steps_cons.
    destruct (fst (s b h)) as [e'|[]] eqn:Hfst; cbn [fst].
    + intros [= ->]. exists 0. split; [cbn; lia|]. split; [reflexivity|].
      cbn. now rewrite app_nil_r.
    + intros Hr. destruct (IH _ Hr) as (k & Hk & Hok & He).
      exists (S k). split; [cbn; lia|]. split.
      * cbn [firstn]. rewrite run_steps_cons, Hfst. exact Hok.
      * cbn [firstn nth]. rewrite run_steps_cons, Hfst. cbn [snd].
        now rewrite calls_app, app_assoc.
Qed.

(** Status codes do not change whether a run raises. *)
Lemma run_steps_statuses reqs ss b b' h :
  Forall2 probing reqs ss ->
  same_but_statuses b b' ->
  fst (run_steps ss b h) = fst (run_steps ss b' h).
Proof.
  intros Hall Hb. revert h.
  induction Hall as [|req s reqs' ss' Hs _ IH]; intros h.
  - reflexivity.
  - rewrite !run_steps_cons.
    assert (Hfst : fst (s b h) = fst (s b' h)).
    { rewrite (pr_local _ _ Hs b h), (pr_local _ _ Hs b' h).
      apply (pr_status _ _ Hs), Hb. }
    rewrite Hfst, !(pr_calls _ _ Hs).
    destruct (fst (s b' h)) as [e|[]]; cbn [fst]; [reflexivity | apply IH].
Qed.

(** The status code of every response received is printed. *)
Lemma run_steps_shows_status reqs ss b h r :
  Forall2 probing reqs ss ->
  In (inr r) (responses (snd (run_steps ss b h))) ->
  In (status_line r) (prints (snd (run_steps ss b h))).
Proof.
  intros Hall. revert h.
  induction Hall as [|req s reqs' ss' Hs _ IH]; intros h.
  - intros [].
  - rewrite run_steps_cons.
    pose proof (pr_responses _ _ Hs b h) as Hr.
    pose proof (pr_shows_status _ _ Hs b h r) as Hp.
    destruct (fst (s b h)) as [e|[]]; cbn [snd].
    + rewrite Hr. intros [Heq|[]]. auto.
    + rewrite responses_app, prints_app, Hr. intros [Heq|Hin];
        apply in_or_app; [left; auto | right; auto].
Qed.

Lemma with_status_same (status : Z) (b : backend) :
  same_but_statuses b (with_status status b).
Proof.
  intros h r. unfold with_status, same_but_status.
  now destruct (b h r) as [e|x].
Qed.

(** ** The whole script *)

Lemma body_cases b h :
  body b h =
  match fst (run_steps steps b h) with
  | inl e => (inl e, snd (run_steps steps b h))
  | inr _ => (inr tt, snd (run_steps steps b h) ++ [Print success_banner])
  end.
Proof.
  change (body b h) with
    (fold_right (fun s acc => s ;; acc) (print success_banner) steps b h).
  rewrite run_steps_then. unfold bind, print.
  now destruct (run_steps steps b h) as [[e|[]] t].
Qed.

Lemma main_cases b :
  main b [] =
  (inr tt,
   Print start_banner :: snd (run_steps steps b [])
     ++ [Print match fst (run_steps steps b []) with
               | inl e => failure_message e
               | inr _ => success_banner
               end]).
Proof.
  unfold main, bind, try_except, print at 1.
  change ([] ++ calls [Print (newline ++ "🌐 Testing API Endpoints..." ++ newline)])
    with (@nil request).
  rewrite body_cases.
  destruct (run_steps steps b []) as [[e|[]] t]; cbn [fst snd]; reflexivity.
Qed.

Lemma body_result b h : fst (body b h) = fst (run_steps steps b h).
Proof.
  rewrite body_cases. now destruct (fst (run_steps steps b h)) as [e|[]].
Qed.

Lemma plain_not_failure (ls : list string) :
  forallb plain ls = true -> filter is_failure ls = [].
Proof.
  induction ls as [|s ls IH]; cbn; [reflexivity|].
  unfold plain at 1. intros H.
  apply andb_prop in H as [H1 H2]. apply andb_prop in H1 as [H1 _].
  apply negb_true_iff in H1. rewrite H1. auto.
Qed.

Lemma prefix_empty (s : string) : String.prefix EmptyString s = true.
Proof. now destruct s. Qed.

Lemma is_failure_message e : is_failure (failure_message e) = true.
Proof.
  unfold is_failure, failure_message, failure_marker. cbn.
  apply prefix_empty.
Qed.

(** An exception that leaves the body of [try] was raised by one of the
    five tests. *)
Lemma raised_by_a_test (b : backend) (e : exn) :
  fst (body b []) = inl e -> exists k, k < 5 /\ raises_at b k e.
Proof.
  rewrite body_result.
  apply (run_steps_raises_inv probes steps b [] e steps_probing).
Qed.

(** C1. When every test succeeds, the script makes exactly five HTTP calls:
    register, login, get-profile, save-structure, get-structures, in this
    order, and no other. *)
Theorem five_calls_in_order (b : backend) :
  fst (body b []) = inr tt ->
  calls (snd (main b [])) =
  [register_request; login_request; profile_request;
   save_structure_request; structures_request].
Proof.
  rewrite body_result, main_cases. intros Hok. cbn [snd calls].
  rewrite calls_app. cbn [calls]. rewrite app_nil_r.
  apply (run_steps_calls probes steps b [] steps_probing Hok).
Qed.

(** C2. When a test raises an exception, the remaining tests are skipped: the
    calls made are those of the tests up to the failing one and no more, each
    made once; the output ends with one failure message, which carries the
    text of the exception, and no other line of the output is a failure
    message or the success banner. *)
Theorem failure_aborts (b : backend) (k : nat) (e : exn) :
  raises_at b k e ->
  fst (body b []) = inl e /\
  calls (snd (main b [])) = firstn (S k) probes /\
  (exists lines,
      prints (snd (main b [])) =
        lines ++ [("❌ Error: " ++ exn_str e ++ newline)%string] /\
      forallb plain lines = true) /\
  List.length (filter is_failure (prints (snd (main b [])))) = 1.
Proof.
  intros Hk.
  destruct (run_steps_raises probes steps b [] k e steps_probing Hk)
    as [Hr Hc].
  pose proof (run_steps_plain probes steps b [] steps_probing) as Hp.
  rewrite body_result, main_cases, Hr. cbn [snd calls prints].
  rewrite calls_app, prints_app, Hc. cbn [calls prints].
  rewrite app_nil_r. split; [reflexivity|]. split; [reflexivity|]. split.
  - exists (start_banner :: prints (snd (run_steps steps b []))).
    split; [reflexivity|]. cbn [forallb]. now rewrite Hp.
  - change (start_banner :: ?l ++ ?m) with ((start_banner :: l) ++ m).
    rewrite filter_app, plain_not_failure by (cbn [forallb]; now rewrite Hp).
    cbn [filter app]. now rewrite is_failure_message.
Qed.

(** C3. Whatever the backend does and whatever a test raises, the handler
    around the five tests catches the exception: the script prints the
    failure message (the success banner when nothing was raised), returns
    normally, and the exit status is 0. *)
Theorem exit_status_zero (b : backend) :
  exit_status (fst (main b [])) = 0%Z /\
  fst (main b []) = inr tt /\
  last (prints (snd (main b []))) EmptyString =
    match fst (body b []) with
    | inl e => failure_message e
    | inr _ => success_banner
    end.
Proof.
  rewrite body_result, main_cases. cbn [fst snd prints exit_status].
  repeat split. rewrite prints_app. cbn [prints].
  change (start_banner :: ?l ++ ?m) with ((start_banner :: l) ++ m).
  apply last_last.
Qed.

(** C9. Status codes are printed and never acted upon: when a run raises no
    exception, a run against a backend that differs only in its status codes
    raises none either, makes the five calls, prints the status code of each
    response, prints no failure message and ends with the success banner. *)
Theorem status_codes_are_data (b b' : backend) :
  same_but_statuses b b' ->
  fst (body b []) = inr tt ->
  fst (body b' []) = inr tt /\
  calls (snd (main b' [])) = probes /\
  (forall r, In (inr r) (responses (snd (main b' []))) ->
             In (status_line r) (prints (snd (main b' [])))) /\
  filter is_failure (prints (snd (main b' []))) = [] /\
  last (prints (snd (main b' []))) EmptyString = success_banner.
Proof.
  intros Hb Hok. rewrite body_result in Hok.
  rewrite (run_steps_statuses probes steps b b' [] steps_probing Hb) in Hok.
  pose proof (run_steps_plain probes steps b' [] steps_probing) as Hp.
  rewrite body_result, main_cases, Hok. cbn [snd calls prints responses].
  rewrite calls_app, prints_app, responses_app. cbn [calls prints responses].
  rewrite !app_nil_r. repeat split.
  - apply (run_steps_calls probes steps b' [] steps_probing Hok).
  - intros r Hin. right. apply in_or_app. left.
    apply (run_steps_shows_status probes steps b' [] r steps_probing Hin).
  - change (start_banner :: ?l ++ ?m) with ((start_banner :: l) ++ m).
    rewrite filter_app, plain_not_failure by (cbn [forallb]; now rewrite Hp).
    reflexivity.
  - change (start_banner :: ?l ++ ?m) with ((start_banner :: l) ++ m).
    apply last_last.
Qed.

(** ** Test 5: the listing *)

Lemma print_structure_ok (i : nat) (s : pyval) b h :
  structure_ok s = true ->
  print_structure (i, s) b h = (inr tt, [Print (structure_line (i, s))]).
Proof.
  destruct s as [| | | | |l|items]; try discriminate. intros Hok.
  unfold print_structure, structure_line, name_of, nodes_count, bind, lift,
    print, py_get. cbn in *.
  destruct (lookup "name" items) as [name|];
    destruct (lookup "data" items) as [[| | | | |l|ditems]|];
    try discriminate; cbn; try reflexivity;
    destruct (lookup "nodes" ditems) as [[| | | |x|l|l]|];
    try discriminate; reflexivity.
Qed.

Lemma for_each_print_structure (l : list pyval) (n : nat) b h :
  forallb structure_ok l = true ->
  for_each print_structure (combine (seq n (List.length l)) l) b h =
  (inr tt,
   map Print (map structure_line (combine (seq n (List.length l)) l))).
Proof.
  revert n h. induction l as [|s l IH]; intros n h Hok; [reflexivity|].
  cbn in Hok. apply andb_prop in Hok as [Hs Hl].
  cbn [List.length seq combine for_each map]. unfold bind.
  rewrite (print_structure_ok n s b h Hs), (IH (S n) _ Hl). reflexivity.
Qed.

Lemma structure_lines_kept (entries : list (nat * pyval)) :
  filter is_structure_line (map structure_line entries) =
  map structure_line entries.
Proof.
  induction entries as [|x entries IH]; cbn [map filter]; [reflexivity|].
  replace (is_structure_line (structure_line x)) with true; [now rewrite IH|].
  unfold is_structure_line, structure_line. cbn. now rewrite prefix_empty.
Qed.

Lemma enumerate_nth_from {A : Type} (l : list A) (n i : nat) (x : A) :
  nth_error l i = Some x ->
  nth_error (combine (seq n (List.length l)) l) i = Some (n + i, x).
Proof.
  revert n i. induction l as [|y l IH]; intros n [|i] H; try discriminate.
  - cbn in *. injection H as ->. now rewrite Nat.add_0_r.
  - cbn in *. rewrite (IH (S n) i H). f_equal. f_equal. lia.
Qed.

Lemma show_structures_listing items (l : list pyval) b h :
  lookup "structures" items = Some (PList l) ->
  forallb structure_ok l = true ->
  show_structures (PDict items) b h =
  (inr tt,
   Print ("   Total Structures: " ++ str_int (Z.of_nat (List.length l)))%string
     :: map Print (map structure_line (enumerate l)) ++ [Print EmptyString]).
Proof.
  intros Hl Hok. unfold show_structures, bind, lift, print, py_get.
  rewrite Hl. cbn [py_len py_iter fst snd calls app].
  unfold enumerate. rewrite (for_each_print_structure l 0 b _ Hok).
  reflexivity.
Qed.

Lemma print_structure_bad (i : nat) (s : pyval) b h :
  structure_ok s = false ->
  exists e, print_structure (i, s) b h = (inl e, []).
Proof.
  unfold print_structure, bind, lift, print, py_get.
  destruct s as [| | | | |l|items]; cbn; try (eexists; reflexivity).
  destruct (lookup "name" items) as [name|];
    destruct (lookup "data" items) as [[| | | | |l|ditems]|];
    cbn; try discriminate; try (eexists; reflexivity);
    destruct (lookup "nodes" ditems) as [[| | | |x|l|l]|];
    cbn; try discriminate; eexists; reflexivity.
Qed.

(** An entry that cannot be shown ends the loop: fewer lines than entries
    are printed and the exception leaves the loop. *)
Lemma for_each_print_structure_bad (l : list pyval) (n : nat) b h :
  forallb structure_ok l = false ->
  exists e entries,
    for_each print_structure (combine (seq n (List.length l)) l) b h =
      (inl e, map Print (map structure_line entries)) /\
    List.length entries < List.length l.
Proof.
  revert n h. induction l as [|s l IH]; intros n h Hbad; [discriminate|].
  cbn [List.length seq combine for_each]. unfold bind. cbn in Hbad.
  destruct (structure_ok s) eqn:Hs.
  - rewrite (print_structure_ok n s b h Hs).
    destruct (IH (S n) (h ++ calls [Print (structure_line (n, s))]) Hbad)
      as (e & entries & Hrun & Hlen).
    rewrite Hrun. exists e, ((n, s) :: entries). split; [reflexivity|].
    cbn. lia.
  - destruct (print_structure_bad n s b h Hs) as [e He]. rewrite He.
    exists e, []. split; [reflexivity | cbn; lia].
Qed.

(** The condition of C4 (amended) cannot be dropped: with an entry that
    cannot be shown, test 5 raises and prints fewer per-structure lines than
    the count it has announced. *)
Lemma listing_needs_shown_entries (b : backend) (h : list request)
    (status : Z) (items : list (string * pyval)) (l : list pyval) :
  b h structures_request = answered status (PDict items) ->
  lookup "structures" items = Some (PList l) ->
  forallb structure_ok l = false ->
  (exists e, fst (test_get_structures b h) = inl e) /\
  List.length (filter is_structure_line (prints (snd (test_get_structures b h))))
  < List.length l.
Proof.
  intros Hb Hl Hbad.
  rewrite test_get_structures_probe,
    (probe_answered _ _ _ show_structures_quiet b h status _ Hb).
  unfold show_structures, bind, lift, print, py_get. rewrite Hl.
  cbn [py_len py_iter fst snd calls app]. unfold enumerate.
  destruct (for_each_print_structure_bad l 0 b
              (((h ++ []) ++ []) ++
               calls [Print ("   Total Structures: "
                             ++ str_int (Z.of_nat (List.length l)))%string])
              Hbad)
    as (e & entries & Hrun & Hlen).
  cbn [calls app] in Hrun. rewrite ?app_nil_r in *. rewrite Hrun.
  split; [exists e; reflexivity|]. cbn [fst snd prints filter app].
  change (is_structure_line "5️⃣ Testing Get Structures API...") with false.
  change (is_structure_line ("   Status: " ++ str_int status)) with false.
  change (is_structure_line
            ("   Total Structures: " ++ str_int (Z.of_nat (List.length l))))
    with false.
  cbn iota. rewrite prints_Print, structure_lines_kept, length_map.
  exact Hlen.
Qed.

(** C4 (amended). When the body of the response of test 5 is an object whose
    [structures] is an array of entries that can be shown (objects whose
    [data], when present, is an object whose [nodes], when present, has a
    length), the count printed is the length of the array and exactly that
    many per-structure lines follow, numbered from 1 in the order of the
    array, each with the name of the entry ([None] when absent) and the
    length of its [data.nodes] (0 when absent). *)
Theorem structures_listing (b : backend) (h : list request) (status : Z)
    (items : list (string * pyval)) (l : list pyval) :
  b h structures_request = answered status (PDict items) ->
  lookup "structures" items = Some (PList l) ->
  forallb structure_ok l = true ->
  let out := prints (snd (test_get_structures b h)) in
  fst (test_get_structures b h) = inr tt /\
  out =
    ["5️⃣ Testing Get Structures API...";
     "   Status: " ++ str_int status;
     "   Total Structures: " ++ str_int (Z.of_nat (List.length l))]%string
    ++ map structure_line (enumerate l) ++ [EmptyString] /\
  List.length (filter is_structure_line out) = List.length l /\
  (forall i s, nth_error l i = Some s ->
     nth_error (filter is_structure_line out) i =
       Some ("   [" ++ str_int (Z.of_nat (i + 1)) ++ "] "
             ++ py_str (name_of s)
             ++ " (" ++ str_int (Z.of_nat (nodes_count s)) ++ " nodes)")%string).
Proof.
  intros Hb Hl Hok out. subst out.
  rewrite test_get_structures_probe,
    (probe_answered _ _ _ show_structures_quiet b h status _ Hb),
    (show_structures_listing items l b h Hl Hok).
  cbn [fst snd prints]. rewrite prints_app, prints_Print. cbn [prints app].
  assert (Hf : forall ls,
             filter is_structure_line
               ("5️⃣ Testing Get Structures API..."
                  :: ("   Status: " ++ str_int status)%string
                  :: ("   Total Structures: " ++ ls)%string
                  :: map structure_line (enumerate l) ++ [EmptyString])
             = map structure_line (enumerate l)).
  { intros ls. cbn [filter]. 
    change (is_structure_line "5️⃣ Testing Get Structures API...") with false.
    change (is_structure_line ("   Status: " ++ str_int status)) with false.
    change (is_structure_line ("   Total Structures: " ++ ls)) with false.
    cbn iota. rewrite filter_app, structure_lines_kept. cbn.
    apply app_nil_r. }
  rewrite Hf. repeat split.
  - unfold enumerate. rewrite !length_map, length_combine, length_seq.
    apply Nat.min_id.
  - intros i s Hi. rewrite nth_error_map. unfold enumerate.
    rewrite (enumerate_nth_from l 0 i s Hi). reflexivity.
Qed.

(** C5. A missing key does not raise: [get] yields the default, and the
    output shows [None] (or an empty listing).  This holds for a login body
    without [user] or whose [user] lacks [email] or [fullName], for a profile
    body that lacks [email] or [fullName], for a save-structure body without
    [structure] or whose [structure] lacks [name] or [id], and for a listing
    body without [structures]. *)
Theorem missing_fields_default (b : backend) (h : list request) (status : Z)
    (items : list (string * pyval)) :
  (forall k default,
      lookup k items = None -> py_get (PDict items) k default = inr default) /\
  (b h login_request = answered status (PDict items) ->
   lookup "user" items = None ->
   fst (test_login b h) = inr tt /\
   prints (snd (test_login b h)) =
     ["2️⃣ Testing Login API..."; "   Status: " ++ str_int status;
      "   User: None - None"; EmptyString]%string) /\
  (b h login_request = answered status (PDict items) ->
   forall user, lookup "user" items = Some (PDict user) ->
   fst (test_login b h) = inr tt /\
   prints (snd (test_login b h)) =
     ["2️⃣ Testing Login API..."; "   Status: " ++ str_int status;
      "   User: " ++ py_str (field_or_none "email" user)
        ++ " - " ++ py_str (field_or_none "fullName" user);
      EmptyString]%string) /\
  (b h profile_request = answered status (PDict items) ->
   fst (test_get_profile b h) = inr tt /\
   prints (snd (test_get_profile b h)) =
     ["3️⃣ Testing User Profile API..."; "   Status: " ++ str_int status;
      "   User: " ++ py_str (field_or_none "email" items)
        ++ " - " ++ py_str (field_or_none "fullName" items);
      EmptyString]%string) /\
  (b h save_structure_request = answered status (PDict items) ->
   lookup "structure" items = None ->
   fst (test_save_structure b h) = inr tt /\
   prints (snd (test_save_structure b h)) =
     ["4️⃣ Testing Save Structure API..."; "   Status: " ++ str_int status;
      "   Structure: None (ID: None)"; EmptyString]%string) /\
  (b h save_structure_request = answered status (PDict items) ->
   forall structure, lookup "structure" items = Some (PDict structure) ->
   fst (test_save_structure b h) = inr tt /\
   prints (snd (test_save_structure b h)) =
     ["4️⃣ Testing Save Structure API..."; "   Status: " ++ str_int status;
      "   Structure: " ++ py_str (field_or_none "name" structure)
        ++ " (ID: " ++ py_str (field_or_none "id" structure) ++ ")";
      EmptyString]%string) /\
  (b h structures_request = answered status (PDict items) ->
   lookup "structures" items = None ->
   fst (test_get_structures b h) = inr tt /\
   prints (snd (test_get_structures b h)) =
     ["5️⃣ Testing Get Structures API..."; "   Status: " ++ str_int status;
      "   Total Structures: 0"; EmptyString]%string).
Proof.
  repeat apply conj.
  - intros k default Hk. cbn. now rewrite Hk.
  - intros Hb Hk.
    rewrite test_login_probe,
      (probe_answered _ _ _ show_login_quiet b h status _ Hb).
    unfold show_login, bind, lift, print, py_get. rewrite Hk. cbn. auto.
  - intros Hb user Hk.
    rewrite test_login_probe,
      (probe_answered _ _ _ show_login_quiet b h status _ Hb).
    unfold show_login, field_or_none, bind, lift, print, py_get. rewrite Hk.
    destruct (lookup "email" user), (lookup "fullName" user); cbn; auto.
  - intros Hb.
    rewrite test_get_profile_probe,
      (probe_answered _ _ _ show_profile_quiet b h status _ Hb).
    unfold show_profile, field_or_none, bind, lift, print, py_get.
    destruct (lookup "email" items), (lookup "fullName" items); cbn; auto.
  - intros Hb Hk.
    rewrite test_save_structure_probe,
      (probe_answered _ _ _ show_structure_quiet b h status _ Hb).
    unfold show_structure, bind, lift, print, py_get. rewrite Hk. cbn. auto.
  - intros Hb structure Hk.
    rewrite test_save_structure_probe,
      (probe_answered _ _ _ show_structure_quiet b h status _ Hb).
    unfold show_structure, field_or_none, bind, lift, print, py_get.
    rewrite Hk.
    destruct (lookup "name" structure), (lookup "id" structure); cbn; auto.
  - intros Hb Hk.
    rewrite test_get_structures_probe,
      (probe_answered _ _ _ show_structures_quiet b h status _ Hb).
    unfold show_structures, bind, lift, print, py_get. rewrite Hk. cbn. auto.
Qed.

(** C6. When the body of the response of test 5 is [{"structures": []}], the
    output shows [Total Structures: 0] and no per-structure line. *)
Theorem empty_listing (b : backend) (h : list request) (status : Z) :
  b h structures_request = answered status (PDict [("structures", PList [])]) ->
  prints (snd (test_get_structures b h)) =
    ["5️⃣ Testing Get Structures API..."; "   Status: " ++ str_int status;
     "   Total Structures: 0"; EmptyString]%string /\
  filter is_structure_line (prints (snd (test_get_structures b h))) = [].
Proof.
  intros Hb.
  rewrite test_get_structures_probe,
    (probe_answered _ _ _ show_structures_quiet b h status _ Hb).
  cbn. auto.
Qed.

(** C7. When the structure list of the response of test 5 is
    [[{"name":"Water","data":{"nodes":[{},{},{}]}}]], the one per-structure
    line of the output is the indented text [[1] Water (3 nodes)]. *)
Theorem water_line (b : backend) (h : list request) (status : Z)
    (items : list (string * pyval)) :
  b h structures_request = answered status (PDict items) ->
  lookup "structures" items =
    Some (PList [PDict [("name", PStr "Water");
                        ("data", PDict [("nodes",
                                         PList [PDict []; PDict []; PDict []])])]]) ->
  filter is_structure_line (prints (snd (test_get_structures b h))) =
    ["   " ++ "[1] Water (3 nodes)"]%string /\
  prints (snd (test_get_structures b h)) =
    ["5️⃣ Testing Get Structures API..."; "   Status: " ++ str_int status;
     "   Total Structures: 1"; "   [1] Water (3 nodes)"; EmptyString]%string.
Proof.
  intros Hb Hl.
  rewrite test_get_structures_probe,
    (probe_answered _ _ _ show_structures_quiet b h status _ Hb).
  unfold show_structures, bind, lift, print, py_get. rewrite Hl. cbn. auto.
Qed.

(** C8. Tests 3, 4 and 5 address the user of tests 1 and 2: the [email] sent
    in the payloads of the register and login calls is the user segment of
    the URLs of the get-profile, save-structure and get-structures calls. *)
Theorem same_user_in_all_calls (b : backend) (h : list request) :
  map payload_email
    (calls (snd (test_register b h)) ++ calls (snd (test_login b h))) =
    [Some "john@example.com"; Some "john@example.com"]%string /\
  map url_user
    (calls (snd (test_get_profile b h))
     ++ calls (snd (test_save_structure b h))
     ++ calls (snd (test_get_structures b h))) =
    [Some "john@example.com"; Some "john@example.com";
     Some "john@example.com"]%string.
Proof.
  rewrite (pr_calls _ _ test_register_probing),
    (pr_calls _ _ test_login_probing),
    (pr_calls _ _ test_get_profile_probing),
    (pr_calls _ _ test_save_structure_probing),
    (pr_calls _ _ test_get_structures_probing).
  split; reflexivity.
Qed.

(** ** Further properties of the script *)

Lemma main_calls b :
  calls (snd (main b [])) = calls (snd (run_steps steps b [])).
Proof.
  rewrite main_cases. cbn [snd calls]. rewrite calls_app. cbn [calls].
  apply app_nil_r.
Qed.

Lemma plain_not_banner (ls : list string) :
  forallb plain ls = true -> ~ In success_banner ls.
Proof.
  induction ls as [|s ls IH]; cbn [In forallb]; [tauto|]. intros H.
  apply andb_prop in H as [Hs Hls]. unfold plain in Hs.
  apply andb_prop in Hs as [_ Hs]. apply negb_true_iff in Hs.
  apply String.eqb_neq in Hs. intros [Heq|Hin]; [congruence | now apply IH].
Qed.

(** X1. Whatever the backend answers, the calls of a run are the first [k]
    of the five requests, for some [k] from 1 to 5: the register call is
    always made, the order never changes, and no request depends on a
    response. *)
Theorem calls_prefix_of_probes (b : backend) :
  exists k, 1 <= k <= 5 /\ calls (snd (main b [])) = firstn k probes.
Proof.
  rewrite main_calls. destruct (fst (body b [])) as [e|[]] eqn:Hbody.
  - destruct (raised_by_a_test b e Hbody) as (k & Hk & Hraise).
    exists (S k). split; [lia|].
    apply (run_steps_raises probes steps b [] k e steps_probing Hraise).
  - exists 5. split; [lia|]. rewrite body_result in Hbody.
    apply (run_steps_calls probes steps b [] steps_probing Hbody).
Qed.

(** X2. The success banner is printed exactly when no test raised. *)
Theorem banner_iff_no_exception (b : backend) :
  In success_banner (prints (snd (main b []))) <-> fst (body b []) = inr tt.
Proof.
  pose proof (run_steps_plain probes steps b [] steps_probing) as Hp.
  rewrite body_result, main_cases. cbn [snd prints]. rewrite prints_app.
  cbn [prints]. split.
  - destruct (fst (run_steps steps b [])) as [e|[]]; [|reflexivity].
    intros [Heq|Hin]; [discriminate Heq|].
    apply in_app_or in Hin as [Hin|[Heq|[]]].
    + now apply plain_not_banner in Hin.
    + pose proof (is_failure_message e) as He. rewrite Heq in He.
      discriminate He.
  - intros ->. right. apply in_or_app. right. now left.
Qed.

(** X3. When the first call raises (nothing listens on the port), the run
    is: the start banner, the header of test 1, the call, and the failure
    message. *)
Theorem refused_at_once (b : backend) (e : exn) :
  b [] register_request = inl e ->
  main b [] =
  (inr tt,
   [Print start_banner;
    Print "1️⃣ Testing Registration API...";
    Call register_request (inl e);
    Print ("❌ Error: " ++ exn_str e ++ newline)%string]).
Proof.
  intros Hb. rewrite main_cases. unfold steps. rewrite run_steps_cons.
  rewrite test_register_probe, (probe_run _ _ _ show_register_quiet), Hb.
  reflexivity.
Qed.

(** X4. When the call of a test raises, the test has printed its header
    and nothing else: no status line. *)
Theorem failed_call_output (b : backend) (h : list request) (k : nat)
    (req : request) (s : M unit) (header : string) (e : exn) :
  nth_error probes k = Some req ->
  nth_error steps k = Some s ->
  nth_error headers k = Some header ->
  b h req = inl e ->
  s b h = (inl e, [Print header; Call req (inl e)]).
Proof.
  intros Hreq Hs Hhd Hb.
  destruct k as [|[|[|[|[|k]]]]]; [| | | | |destruct k; discriminate Hreq];
    unfold probes, steps, headers in *; cbn [nth_error] in *;
    injection Hreq as <-; injection Hs as <-; injection Hhd as <-.
  - now rewrite test_register_probe, (probe_run _ _ _ show_register_quiet), Hb.
  - now rewrite test_login_probe, (probe_run _ _ _ show_login_quiet), Hb.
  - now rewrite test_get_profile_probe, (probe_run _ _ _ show_profile_quiet), Hb.
  - now rewrite test_save_structure_probe,
      (probe_run _ _ _ show_structure_quiet), Hb.
  - now rewrite test_get_structures_probe,
      (probe_run _ _ _ show_structures_quiet), Hb.
Qed.

(** X5. The status code is printed before the body is decoded: when the
    body of a response is not JSON, the test has printed its header and the
    status line, and raises what the decoding raised. *)
Theorem undecodable_body_output (b : backend) (h : list request) (k : nat)
    (req : request) (s : M unit) (header : string) (r : response) (e : exn) :
  nth_error probes k = Some req ->
  nth_error steps k = Some s ->
  nth_error headers k = Some header ->
  b h req = inr r ->
  json r = inl e ->
  s b h =
  (inl e,
   [Print header; Call req (inr r);
    Print ("   Status: " ++ str_int (status_code r))%string]).
Proof.
  intros Hreq Hs Hhd Hb Hj.
  destruct k as [|[|[|[|[|k]]]]]; [| | | | |destruct k; discriminate Hreq];
    unfold probes, steps, headers in *; cbn [nth_error] in *;
    injection Hreq as <-; injection Hs as <-; injection Hhd as <-.
  - now rewrite test_register_probe, (probe_run _ _ _ show_register_quiet),
      Hb, Hj.
  - now rewrite test_login_probe, (probe_run _ _ _ show_login_quiet), Hb, Hj.
  - now rewrite test_get_profile_probe, (probe_run _ _ _ show_profile_quiet),
      Hb, Hj.
  - now rewrite test_save_structure_probe,
      (probe_run _ _ _ show_structure_quiet), Hb, Hj.
  - now rewrite test_get_structures_probe,
      (probe_run _ _ _ show_structures_quiet), Hb, Hj.
Qed.

(** X7. Tests 2 to 5 need the body to be an object: on any other decoded
    value they raise the AttributeError of [get], after the header and the
    status line. *)
Theorem non_object_body_raises (b : backend) (h : list request) (k : nat)
    (req : request) (s : M unit) (header : string) (status : Z) (v : pyval) :
  1 <= k ->
  nth_error probes k = Some req ->
  nth_error steps k = Some s ->
  nth_error headers k = Some header ->
  b h req = answered status v ->
  is_object v = false ->
  s b h =
  (inl (mk_exn AttributeError
          ("'" ++ type_name v ++ "' object has no attribute 'get'")),
   [Print header; Call req (answered status v);
    Print ("   Status: " ++ str_int status)%string]).
Proof.
  intros Hk Hreq Hs Hhd Hb Hv.
  destruct k as [|[|[|[|[|k]]]]]; [lia| | | | |destruct k; discriminate Hreq];
    unfold probes, steps, headers in *; cbn [nth_error] in *;
    injection Hreq as <-; injection Hs as <-; injection Hhd as <-.
  - rewrite test_login_probe,
      (probe_answered _ _ _ show_login_quiet b h status _ Hb).
    now destruct v.
  - rewrite test_get_profile_probe,
      (probe_answered _ _ _ show_profile_quiet b h status _ Hb).
    now destruct v.
  - rewrite test_save_structure_probe,
      (probe_answered _ _ _ show_structure_quiet b h status _ Hb).
    now destruct v.
  - rewrite test_get_structures_probe,
      (probe_answered _ _ _ show_structures_quiet b h status _ Hb).
    now destruct v.
Qed.

(** X8. The default of [get] serves an absent key only: when [user] (test
    2) or [structure] (test 4) is present with a value that is not an object,
    such as [null], the test raises the AttributeError of [get] and prints no
    detail line. *)
Theorem present_field_must_be_object (b : backend) (h : list request)
    (status : Z) (items : list (string * pyval)) (v : pyval) :
  is_object v = false ->
  (b h login_request = answered status (PDict items) ->
   lookup "user" items = Some v ->
   test_login b h =
   (inl (no_get v),
    [Print "2️⃣ Testing Login API...";
     Call login_request (answered status (PDict items));
     Print ("   Status: " ++ str_int status)%string])) /\
  (b h save_structure_request = answered status (PDict items) ->
   lookup "structure" items = Some v ->
   test_save_structure b h =
   (inl (no_get v),
    [Print "4️⃣ Testing Save Structure API...";
     Call save_structure_request (answered status (PDict items));
     Print ("   Status: " ++ str_int status)%string])).
Proof.
  intros Hv. split; intros Hb Hk.
  - rewrite test_login_probe,
      (probe_answered _ _ _ show_login_quiet b h status _ Hb).
    unfold show_login, bind, lift, print, py_get. rewrite Hk.
    now destruct v.
  - rewrite test_save_structure_probe,
      (probe_answered _ _ _ show_structure_quiet b h status _ Hb).
    unfold show_structure, bind, lift, print, py_get. rewrite Hk.
    now destruct v.
Qed.

(** X9. When [structures] is present with a value that has no length (a
    number, a boolean, [null]), test 5 raises the TypeError of [len] before
    it prints any count. *)
Theorem listing_without_length_raises (b : backend) (h : list request)
    (status : Z) (items : list (string * pyval)) (v : pyval) :
  b h structures_request = answered status (PDict items) ->
  lookup "structures" items = Some v ->
  has_len v = false ->
  test_get_structures b h =
  (inl (mk_exn TypeError
          ("object of type '" ++ type_name v ++ "' has no len()")),
   [Print "5️⃣ Testing Get Structures API...";
    Call structures_request (answered status (PDict items));
    Print ("   Status: " ++ str_int status)%string]).
Proof.
  intros Hb Hk Hv.
  rewrite test_get_structures_probe,
    (probe_answered _ _ _ show_structures_quiet b h status _ Hb).
  unfold show_structures, bind, lift, print, py_get. rewrite Hk.
  now destruct v.
Qed.

(** X10. When [structures] is a non-empty string or object instead of an
    array, test 5 prints its length as the count, then raises on the first
    character or key, which is a string and has no [get]; no per-structure
    line is printed. *)
Theorem listing_not_an_array (b : backend) (h : list request) (status : Z)
    (items : list (string * pyval)) (v : pyval) (n : nat) :
  b h structures_request = answered status (PDict items) ->
  lookup "structures" items = Some v ->
  is_array v = false ->
  py_len v = inr (S n) ->
  test_get_structures b h =
  (inl (mk_exn AttributeError "'str' object has no attribute 'get'"),
   [Print "5️⃣ Testing Get Structures API...";
    Call structures_request (answered status (PDict items));
    Print ("   Status: " ++ str_int status)%string;
    Print ("   Total Structures: " ++ str_int (Z.of_nat (S n)))%string]).
Proof.
  intros Hb Hk Hv Hlen.
  rewrite test_get_structures_probe,
    (probe_answered _ _ _ show_structures_quiet b h status _ Hb).
  unfold show_structures, bind, lift, print, py_get. rewrite Hk, Hlen.
  destruct v as [| | | |s|l|d]; try discriminate; cbn in Hlen;
    injection Hlen as Hlen; cbn [py_iter].
  - destruct (code_points s) as [|p ps]; [discriminate|]. reflexivity.
  - destruct d as [|[key x] d]; [discriminate|]. reflexivity.
Qed.

Lemma for_each_print_structure_until (good : list pyval) (bad : pyval)
    (rest : list pyval) (n : nat) b h :
  forallb structure_ok good = true ->
  structure_ok bad = false ->
  exists e,
    for_each print_structure
      (combine (seq n (List.length (good ++ bad :: rest)))
         (good ++ bad :: rest)) b h =
    (inl e,
     map Print (map structure_line (combine (seq n (List.length good)) good))).
Proof.
  intros Hgood Hbad. revert n h.
  induction good as [|s good IH]; intros n h.
  - cbn [app List.length seq combine for_each map]. unfold bind.
    destruct (print_structure_bad n bad b h Hbad) as [e He]. rewrite He.
    now exists e.
  - cbn in Hgood. apply andb_prop in Hgood as [Hs Hgood].
    cbn [app List.length seq combine for_each map]. unfold bind.
    rewrite (print_structure_ok n s b h Hs).
    destruct (IH Hgood (S n) (h ++ calls [Print (structure_line (n, s))]))
      as [e He].
    rewrite He. now exists e.
Qed.

(** X11. The listing stops at the first entry that cannot be shown: after
    the count (the length of the whole array), the lines of the entries
    before it are printed, numbered from 1, and then the test raises. *)
Theorem listing_stops_at_first_bad_entry (b : backend) (h : list request)
    (status : Z) (items : list (string * pyval))
    (good : list pyval) (bad : pyval) (rest : list pyval) :
  b h structures_request = answered status (PDict items) ->
  lookup "structures" items = Some (PList (good ++ bad :: rest)) ->
  forallb structure_ok good = true ->
  structure_ok bad = false ->
  (exists e, fst (test_get_structures b h) = inl e) /\
  prints (snd (test_get_structures b h)) =
    ["5️⃣ Testing Get Structures API...";
     "   Status: " ++ str_int status;
     "   Total Structures: "
       ++ str_int (Z.of_nat (List.length (good ++ bad :: rest)))]%string
    ++ map structure_line (enumerate good).
Proof.
  intros Hb Hk Hgood Hbad.
  rewrite test_get_structures_probe,
    (probe_answered _ _ _ show_structures_quiet b h status _ Hb).
  unfold show_structures, bind, lift, print, py_get. rewrite Hk.
  cbn [py_len py_iter fst snd calls app]. unfold enumerate.
  destruct (for_each_print_structure_until good bad rest 0 b
              (((h ++ []) ++ []) ++
               calls [Print ("   Total Structures: "
                             ++ str_int (Z.of_nat
                                  (List.length (good ++ bad :: rest))))%string])
              Hgood Hbad) as [e He].
  cbn [calls app] in He. rewrite ?app_nil_r in *. rewrite He.
  cbn [fst snd prints app]. rewrite prints_Print.
  split; [now exists e | reflexivity].
Qed.

(** X12. No test uses what an earlier test received: the result and the
    events of a test depend on the backend and on the history only through
    the outcome of its own call. *)
Theorem test_uses_only_its_response (k : nat) (req : request) (s : M unit)
    (b b' : backend) (h h' : list request) :
  nth_error probes k = Some req ->
  nth_error steps k = Some s ->
  b h req = b' h' req ->
  s b h = s b' h'.
Proof.
  intros Hreq Hs Hb.
  assert (Hp : probing req s).
  { destruct k as [|[|[|[|[|k]]]]]; [| | | | |destruct k; discriminate Hreq];
      unfold probes, steps in *; cbn [nth_error] in *;
      injection Hreq as <-; injection Hs as <-.
    - exact test_register_probing.
    - exact test_login_probing.
    - exact test_get_profile_probing.
    - exact test_save_structure_probing.
    - exact test_get_structures_probing. }
  now rewrite (pr_local _ _ Hp b h), (pr_local _ _ Hp b' h'), Hb.
Qed.

(** ** What the output depends on *)

Lemma probe_text_blind (header : string) (req : request)
    (show : pyval -> M unit) :
  (forall data, quiet (show data)) -> text_blind (probe header req show).
Proof.
  intros Hshow o o' Ho. rewrite !(probe_run _ _ _ Hshow). unfold always.
  destruct o as [e|r], o' as [e'|r']; cbn in Ho.
  - injection Ho as Ho. split; [reflexivity | exact Ho].
  - destruct (json r'); discriminate Ho.
  - destruct (json r); discriminate Ho.
  - unfold status_line.
    destruct (json r) as [e|data], (json r') as [e'|data'];
      try discriminate Ho.
    + injection Ho as Hstatus Htext. rewrite Hstatus.
      split; [reflexivity | exact Htext].
    + injection Ho as Hstatus Hbody. subst data'. rewrite Hstatus.
      destruct (Hshow data) as (res & ls & _ & Hs). rewrite !Hs.
      split; [reflexivity|]. cbn. now destruct res.
Qed.

Lemma steps_observed :
  Forall2 (fun req s => probing req s /\ text_blind s) probes steps.
Proof.
  unfold probes, steps. repeat apply Forall2_cons; [| | | | | apply Forall2_nil].
  - split; [exact test_register_probing|]. rewrite test_register_probe.
    apply probe_text_blind, show_register_quiet.
  - split; [exact test_login_probing|]. rewrite test_login_probe.
    apply probe_text_blind, show_login_quiet.
  - split; [exact test_get_profile_probing|]. rewrite test_get_profile_probe.
    apply probe_text_blind, show_profile_quiet.
  - split; [exact test_save_structure_probing|].
    rewrite test_save_structure_probe.
    apply probe_text_blind, show_structure_quiet.
  - split; [exact test_get_structures_probing|].
    rewrite test_get_structures_probe.
    apply probe_text_blind, show_structures_quiet.
Qed.

(** Two runs of a sequence of tests of which the same is observed print the
    same lines and end alike. *)
Lemma run_steps_observed reqs ss b1 h1 b2 h2 :
  Forall2 (fun req s => probing req s /\ text_blind s) reqs ss ->
  map observe (responses (snd (run_steps ss b1 h1))) =
  map observe (responses (snd (run_steps ss b2 h2))) ->
  prints (snd (run_steps ss b1 h1)) = prints (snd (run_steps ss b2 h2)) /\
  same_text (fst (run_steps ss b1 h1)) (fst (run_steps ss b2 h2)).
Proof.
  intros Hall. revert h1 h2.
  induction Hall as [|req s reqs' ss' [Hs Hblind] _ IH]; intros h1 h2.
  - intros _. split; reflexivity.
  - rewrite !run_steps_cons. intros H.
    pose proof (pr_responses _ _ Hs b1 h1) as R1.
    pose proof (pr_responses _ _ Hs b2 h2) as R2.
    assert (Ho : observe (b1 h1 req) = observe (b2 h2 req)).
    { destruct (fst (s b1 h1)) as [?|[]], (fst (s b2 h2)) as [?|[]];
        cbn [snd] in H; rewrite ?responses_app, R1, R2 in H;
        cbn [app map] in H; now injection H. }
    destruct (Hblind _ _ Ho) as [Hprints Hres].
    rewrite <- (pr_local _ _ Hs b1 h1), <- (pr_local _ _ Hs b2 h2)
      in Hprints, Hres.
    destruct (fst (s b1 h1)) as [e1|[]], (fst (s b2 h2)) as [e2|[]];
      cbn [fst snd] in *; try contradiction.
    + split; [exact Hprints | exact Hres].
    + rewrite !responses_app, R1, R2 in H. cbn [app map] in H.
      injection H as _ H. destruct (IH _ _ H) as [Hp Hr].
      rewrite !prints_app, Hprints, Hp. split; [reflexivity | exact Hr].
Qed.

Lemma responses_count (t : list event) :
  List.length (responses t) = List.length (calls t).
Proof.
  induction t as [|[r o|s] t IH]; cbn; [reflexivity | now rewrite IH | exact IH].
Qed.

(** The calls of a run are as many of the five requests as responses were
    received. *)
Lemma main_calls_count (b : backend) :
  calls (snd (main b [])) =
  firstn (List.length (responses (snd (main b [])))) probes.
Proof.
  rewrite responses_count, main_calls.
  destruct (fst (body b [])) as [e|[]] eqn:Hbody.
  - destruct (raised_by_a_test b e Hbody) as (k & Hk & Hraise).
    destruct (run_steps_raises probes steps b [] k e steps_probing Hraise)
      as [_ Hc].
    rewrite Hc at 2. rewrite Hc, length_firstn.
    replace (Nat.min (S k) (List.length probes)) with (S k)
      by (cbn [List.length probes]; lia).
    reflexivity.
  - rewrite body_result in Hbody.
    now rewrite (run_steps_calls probes steps b [] steps_probing Hbody).
Qed.

(** C10 (amended). The output is a function of what the run observes of the
    backend: the status codes and the bodies of the responses, and, where a
    call or a decoding raises, the text of the exception.  Two runs of which
    the same is observed print the same lines and make the same calls, even
    when the backends differ in the class of the exceptions or in what they
    would answer to requests the script does not send. *)
Theorem output_determined_by_observations (b1 b2 : backend) :
  map observe (responses (snd (main b1 []))) =
  map observe (responses (snd (main b2 []))) ->
  prints (snd (main b1 [])) = prints (snd (main b2 [])) /\
  calls (snd (main b1 [])) = calls (snd (main b2 [])).
Proof.
  intros H. split.
  - rewrite !main_cases in *. cbn [snd responses prints] in *.
    rewrite !responses_app in H. cbn [responses] in H.
    rewrite !app_nil_r in H.
    destruct (run_steps_observed probes steps b1 [] b2 [] steps_observed H)
      as [Hp Hr].
    rewrite !prints_app, Hp. cbn [prints]. do 3 f_equal.
    destruct (fst (run_steps steps b1 [])) as [e1|[]],
             (fst (run_steps steps b2 [])) as [e2|[]];
      cbn in Hr; try contradiction; [|reflexivity].
    unfold failure_message. now rewrite Hr.
  - rewrite (main_calls_count b1), (main_calls_count b2).
    apply (f_equal (@List.length observed)) in H.
    rewrite !length_map in H. now rewrite H.
Qed.

End Script.

(** ** The theorems at concrete backends *)

Lemma five_calls_in_order_healthy :
  fst (body repr_plain healthy []) = inr tt /\
  calls (snd (main repr_plain healthy [])) =
  [register_request; login_request; profile_request;
   save_structure_request; structures_request].
Proof.
  split; [vm_compute; reflexivity|].
  apply (five_calls_in_order repr_plain healthy). vm_compute. reflexivity.
Defined.

Lemma failure_aborts_at_login :
  raises_at repr_plain login_not_json 1 expecting_value /\
  fst (body repr_plain login_not_json []) = inl expecting_value /\
  calls (snd (main repr_plain login_not_json [])) = firstn 2 probes /\
  (exists lines,
      prints (snd (main repr_plain login_not_json [])) =
        lines ++ [("❌ Error: " ++ exn_str expecting_value ++ newline)%string] /\
      forallb plain lines = true) /\
  List.length
    (filter is_failure (prints (snd (main repr_plain login_not_json [])))) = 1.
Proof.
  assert (H : raises_at repr_plain login_not_json 1 expecting_value).
  { split; vm_compute; reflexivity. }
  split; [exact H|].
  exact (failure_aborts repr_plain login_not_json 1 expecting_value H).
Defined.

Lemma structures_listing_healthy :
  healthy [] structures_request =
    answered 200 (PDict [("structures", PList [water_entry])]) /\
  lookup "structures" [("structures", PList [water_entry])] =
    Some (PList [water_entry]) /\
  forallb structure_ok [water_entry] = true /\
  let out := prints (snd (test_get_structures repr_plain healthy [])) in
  fst (test_get_structures repr_plain healthy []) = inr tt /\
  out =
    ["5️⃣ Testing Get Structures API...";
     "   Status: " ++ str_int 200;
     "   Total Structures: " ++ str_int (Z.of_nat (List.length [water_entry]))]%string
    ++ map (structure_line repr_plain) (enumerate [water_entry])
    ++ [EmptyString] /\
  List.length (filter is_structure_line out) = List.length [water_entry] /\
  (forall i s, nth_error [water_entry] i = Some s ->
     nth_error (filter is_structure_line out) i =
       Some ("   [" ++ str_int (Z.of_nat (i + 1)) ++ "] "
             ++ py_str repr_plain (name_of s)
             ++ " (" ++ str_int (Z.of_nat (nodes_count s)) ++ " nodes)")%string).
Proof.
  split; [reflexivity|]. split; [reflexivity|]. split; [reflexivity|].
  apply (structures_listing repr_plain healthy [] 200
           [("structures", PList [water_entry])] [water_entry]);
    reflexivity.
Defined.

(** C4, as stated, fails for a listing with an entry that is not an object:
    the count printed is 1, the per-structure line is not printed, and the
    test raises. *)
Lemma listing_cut_short :
  odd_listing [] structures_request =
    answered 200 (PDict [("structures", PList [PInt 5])]) /\
  prints (snd (test_get_structures repr_plain odd_listing [])) =
    ["5️⃣ Testing Get Structures API..."; "   Status: 200";
     "   Total Structures: 1"]%string /\
  List.length
    (filter is_structure_line
       (prints (snd (test_get_structures repr_plain odd_listing []))))
  <> List.length [PInt 5] /\
  fst (test_get_structures repr_plain odd_listing []) =
    inl (mk_exn AttributeError "'int' object has no attribute 'get'").
Proof.
  split; [reflexivity|]. split; [vm_compute; reflexivity|].
  split; [vm_compute; discriminate | vm_compute; reflexivity].
Qed.

Lemma missing_fields_default_empty_bodies :
  py_get (PDict []) "user" (PDict []) = inr (PDict []) /\
  prints (snd (test_login repr_plain empty_bodies [])) =
    ["2️⃣ Testing Login API..."; "   Status: 200";
     "   User: None - None"; EmptyString]%string /\
  prints (snd (test_get_profile repr_plain empty_bodies [])) =
    ["3️⃣ Testing User Profile API..."; "   Status: 200";
     "   User: None - None"; EmptyString]%string /\
  prints (snd (test_save_structure repr_plain empty_bodies [])) =
    ["4️⃣ Testing Save Structure API..."; "   Status: 200";
     "   Structure: None (ID: None)"; EmptyString]%string /\
  prints (snd (test_get_structures repr_plain empty_bodies [])) =
    ["5️⃣ Testing Get Structures API..."; "   Status: 200";
     "   Total Structures: 0"; EmptyString]%string.
Proof.
  destruct (missing_fields_default repr_plain empty_bodies [] 200 [])
    as (Hget & Hlogin & _ & Hprofile & Hsave & _ & Hlist).
  split; [apply Hget; reflexivity|].
  split; [apply Hlogin; reflexivity|].
  split; [apply Hprofile; reflexivity|].
  split; [apply Hsave; reflexivity | apply Hlist; reflexivity].
Defined.

Lemma empty_listing_at_200 :
  always (answered 200 (PDict [("structures", PList [])])) []
    structures_request
  = answered 200 (PDict [("structures", PList [])]) /\
  prints (snd (test_get_structures repr_plain
                 (always (answered 200 (PDict [("structures", PList [])])))
                 [])) =
    ["5️⃣ Testing Get Structures API..."; "   Status: " ++ str_int 200;
     "   Total Structures: 0"; EmptyString]%string /\
  filter is_structure_line
    (prints (snd (test_get_structures repr_plain
                    (always (answered 200 (PDict [("structures", PList [])])))
                    []))) = [].
Proof.
  split; [reflexivity|].
  apply (empty_listing repr_plain
           (always (answered 200 (PDict [("structures", PList [])]))) [] 200).
  reflexivity.
Defined.

Lemma water_line_healthy :
  healthy [] structures_request =
    answered 200 (PDict [("structures", PList [water_entry])]) /\
  filter is_structure_line
    (prints (snd (test_get_structures repr_plain healthy []))) =
    ["   " ++ "[1] Water (3 nodes)"]%string /\
  prints (snd (test_get_structures repr_plain healthy [])) =
    ["5️⃣ Testing Get Structures API..."; "   Status: " ++ str_int 200;
     "   Total Structures: 1"; "   [1] Water (3 nodes)"; EmptyString]%string.
Proof.
  split; [reflexivity|].
  apply (water_line repr_plain healthy [] 200
           [("structures", PList [water_entry])]); reflexivity.
Defined.

Lemma status_codes_are_data_at_500 :
  same_but_statuses healthy (with_status 500 healthy) /\
  fst (body repr_plain healthy []) = inr tt /\
  fst (body repr_plain (with_status 500 healthy) []) = inr tt /\
  calls (snd (main repr_plain (with_status 500 healthy) [])) = probes /\
  (forall r,
      In (inr r) (responses (snd (main repr_plain (with_status 500 healthy) []))) ->
      In (status_line r)
         (prints (snd (main repr_plain (with_status 500 healthy) [])))) /\
  filter is_failure
    (prints (snd (main repr_plain (with_status 500 healthy) []))) = [] /\
  last (prints (snd (main repr_plain (with_status 500 healthy) [])))
    EmptyString = success_banner.
Proof.
  split; [apply with_status_same|]. split; [vm_compute; reflexivity|].
  apply (status_codes_are_data repr_plain healthy (with_status 500 healthy)).
  - apply with_status_same.
  - vm_compute. reflexivity.
Defined.

Lemma refused_at_once_unreachable :
  unreachable [] register_request = inl connection_refused /\
  main repr_plain unreachable [] =
  (inr tt,
   [Print start_banner;
    Print "1️⃣ Testing Registration API...";
    Call register_request (inl connection_refused);
    Print ("❌ Error: " ++ exn_str connection_refused ++ newline)%string]).
Proof.
  split; [reflexivity|].
  apply (refused_at_once repr_plain unreachable connection_refused).
  reflexivity.
Defined.

Lemma failed_call_output_at_profile :
  unreachable [] profile_request = inl connection_refused /\
  test_get_profile repr_plain unreachable [] =
  (inl connection_refused,
   [Print "3️⃣ Testing User Profile API...";
    Call profile_request (inl connection_refused)]).
Proof.
  split; [reflexivity|].
  apply (failed_call_output repr_plain unreachable [] 2 profile_request
           (test_get_profile repr_plain) "3️⃣ Testing User Profile API..."
           connection_refused); reflexivity.
Defined.

Lemma undecodable_body_output_at_register :
  not_json [] register_request = inr (mk_response 502 (inl expecting_value)) /\
  test_register repr_plain not_json [] =
  (inl expecting_value,
   [Print "1️⃣ Testing Registration API...";
    Call register_request (inr (mk_response 502 (inl expecting_value)));
    Print ("   Status: " ++ str_int 502)%string]).
Proof.
  split; [reflexivity|].
  apply (undecodable_body_output repr_plain not_json [] 0 register_request
           (test_register repr_plain) "1️⃣ Testing Registration API..."
           (mk_response 502 (inl expecting_value)) expecting_value);
    reflexivity.
Defined.

Lemma null_body_raises_at_login :
  1 <= 1 /\
  null_bodies [] login_request = answered 200 PNone /\
  is_object PNone = false /\
  test_login repr_plain null_bodies [] =
  (inl (mk_exn AttributeError
          ("'" ++ type_name PNone ++ "' object has no attribute 'get'")),
   [Print "2️⃣ Testing Login API..."; Call login_request (answered 200 PNone);
    Print ("   Status: " ++ str_int 200)%string]).
Proof.
  split; [lia|]. split; [reflexivity|]. split; [reflexivity|].
  apply (non_object_body_raises repr_plain null_bodies [] 1 login_request
           (test_login repr_plain) "2️⃣ Testing Login API..." 200 PNone);
    solve [lia | reflexivity].
Defined.

Lemma null_user_raises :
  is_object PNone = false /\
  test_login repr_plain null_fields [] =
  (inl (no_get PNone),
   [Print "2️⃣ Testing Login API...";
    Call login_request
      (answered 200 (PDict [("user", PNone); ("structure", PNone)]));
    Print ("   Status: " ++ str_int 200)%string]) /\
  test_save_structure repr_plain null_fields [] =
  (inl (no_get PNone),
   [Print "4️⃣ Testing Save Structure API...";
    Call save_structure_request
      (answered 200 (PDict [("user", PNone); ("structure", PNone)]));
    Print ("   Status: " ++ str_int 200)%string]).
Proof.
  split; [reflexivity|].
  destruct (present_field_must_be_object repr_plain null_fields [] 200
              [("user", PNone); ("structure", PNone)] PNone eq_refl)
    as [Hlogin Hsave].
  split; [apply Hlogin; reflexivity | apply Hsave; reflexivity].
Defined.

Lemma count_listing_raises :
  count_listing [] structures_request =
    answered 200 (PDict [("structures", PInt 3)]) /\
  lookup "structures" [("structures", PInt 3)] = Some (PInt 3) /\
  has_len (PInt 3) = false /\
  test_get_structures repr_plain count_listing [] =
  (inl (mk_exn TypeError
          ("object of type '" ++ type_name (PInt 3) ++ "' has no len()")),
   [Print "5️⃣ Testing Get Structures API...";
    Call structures_request (answered 200 (PDict [("structures", PInt 3)]));
    Print ("   Status: " ++ str_int 200)%string]).
Proof.
  split; [reflexivity|]. split; [reflexivity|]. split; [reflexivity|].
  apply (listing_without_length_raises repr_plain count_listing [] 200
           [("structures", PInt 3)] (PInt 3)); reflexivity.
Defined.

Lemma keyed_listing_raises :
  keyed_listing [] structures_request =
    answered 200 (PDict [("structures", PDict [("Water", water_entry)])]) /\
  is_array (PDict [("Water", water_entry)]) = false /\
  py_len (PDict [("Water", water_entry)]) = inr 1 /\
  test_get_structures repr_plain keyed_listing [] =
  (inl (mk_exn AttributeError "'str' object has no attribute 'get'"),
   [Print "5️⃣ Testing Get Structures API...";
    Call structures_request
      (answered 200 (PDict [("structures", PDict [("Water", water_entry)])]));
    Print ("   Status: " ++ str_int 200)%string;
    Print ("   Total Structures: " ++ str_int (Z.of_nat 1))%string]).
Proof.
  split; [reflexivity|]. split; [reflexivity|]. split; [reflexivity|].
  apply (listing_not_an_array repr_plain keyed_listing [] 200
           [("structures", PDict [("Water", water_entry)])]
           (PDict [("Water", water_entry)]) 0); reflexivity.
Defined.

Lemma mixed_listing_stops :
  mixed_listing [] structures_request =
    answered 200
      (PDict [("structures", PList ([water_entry] ++ PInt 5 :: [water_entry]))]) /\
  forallb structure_ok [water_entry] = true /\
  structure_ok (PInt 5) = false /\
  (exists e, fst (test_get_structures repr_plain mixed_listing []) = inl e) /\
  prints (snd (test_get_structures repr_plain mixed_listing [])) =
    ["5️⃣ Testing Get Structures API...";
     "   Status: " ++ str_int 200;
     "   Total Structures: "
       ++ str_int (Z.of_nat (List.length ([water_entry] ++ PInt 5 :: [water_entry])))]%string
    ++ map (structure_line repr_plain) (enumerate [water_entry]).
Proof.
  split; [reflexivity|]. split; [reflexivity|]. split; [reflexivity|].
  apply (listing_stops_at_first_bad_entry repr_plain mixed_listing [] 200
           [("structures", PList ([water_entry] ++ PInt 5 :: [water_entry]))]
           [water_entry] (PInt 5) [water_entry]); reflexivity.
Defined.

Lemma profile_uses_only_its_response :
  healthy [] profile_request = refuses_first [register_request] profile_request /\
  test_get_profile repr_plain healthy [] =
  test_get_profile repr_plain refuses_first [register_request].
Proof.
  split; [reflexivity|].
  apply (test_uses_only_its_response repr_plain 2 profile_request
           (test_get_profile repr_plain) healthy refuses_first
           [] [register_request]); reflexivity.
Defined.

Lemma output_determined_at_login :
  map observe (responses (snd (main repr_plain login_not_json []))) =
    map observe (responses (snd (main repr_plain second_not_json []))) /\
  prints (snd (main repr_plain login_not_json [])) =
    prints (snd (main repr_plain second_not_json [])) /\
  calls (snd (main repr_plain login_not_json [])) =
    calls (snd (main repr_plain second_not_json [])).
Proof.
  split; [vm_compute; reflexivity|].
  apply (output_determined_by_observations repr_plain
           login_not_json second_not_json).
  vm_compute. reflexivity.
Defined.

(** C10, as stated, fails: two runs that receive the same responses (none)
    and raise at the same place (the first call) print different lines when
    the texts of the exceptions differ, since the handler prints the text. *)
Lemma same_place_other_text :
  map (fun o => forget_text (observe o))
      (responses (snd (main repr_plain unreachable []))) =
    map (fun o => forget_text (observe o))
        (responses (snd (main repr_plain timed_out []))) /\
  calls (snd (main repr_plain unreachable [])) =
    calls (snd (main repr_plain timed_out [])) /\
  prints (snd (main repr_plain unreachable [])) <>
    prints (snd (main repr_plain timed_out [])).
Proof.
  split; [vm_compute; reflexivity|]. split; [vm_compute; reflexivity|].
  vm_compute. discriminate.
Qed.
